(** * Bill extraction: validation, cross-page deduplication and reconciliation

    A shallow embedding of [services/validator.py] (class [ValidationEngine];
    [services/data_validator.py], class [DataValidator], has the same method
    bodies line for line) and of the reconciliation steps of
    [process_invoice_request] in [main.py], followed by the properties the
    specification states about them.

    Python values are modelled as follows.
    - [float] is IEEE-754 binary64, taken from the Standard Library's
      [SpecFloat] with 53 bits of precision; every operation rounds to nearest,
      ties to even, as CPython's does.
    - [str] is [string]; a character stands for the code point of the same
      number, so the model covers the strings whose code points are below 256.
    - a raised exception is a value [Raise e] of the type [result]. *)

From Stdlib Require Import ZArith List Bool Lia Arith.
From Stdlib Require Import Strings.String Strings.Ascii.
From Stdlib Require Import Numbers.DecimalString.
From Stdlib Require Import Lists.ListSet.
From Stdlib Require Import Floats.SpecFloat.
Import ListNotations.

Open Scope string_scope.
Open Scope list_scope.

(* ================================================================== *)
(** ** Python floats *)

Module PyFloat.

Local Open Scope Z_scope.

Definition prec : Z := 53.
Definition emax : Z := 1024.

Definition float : Type := spec_float.

(** The double nearest to the rational [n / d], with sign [s]. *)
Definition of_ratio (s : bool) (n d : positive) : float :=
  let '(q, e, l) := SFdiv_core_binary prec emax (Zpos n) 0 (Zpos d) 0 in
  binary_round_aux prec emax s q e l.

(** The double nearest to the integer [z]. *)
Definition of_Z (z : Z) : float := binary_normalize prec emax z 0 false.

(** A decimal literal: [lit n d] is what Python reads for the quotient
    [n / d] written in decimal, for instance [lit 8 10] for [0.8]. *)
Definition lit (n : Z) (d : positive) : float :=
  match n with
  | Z0 => S754_zero false
  | Zpos p => of_ratio false p d
  | Zneg p => of_ratio true p d
  end.

Definition zero : float := S754_zero false.

Definition add : float -> float -> float := SFadd prec emax.
Definition sub : float -> float -> float := SFsub prec emax.
Definition div : float -> float -> float := SFdiv prec emax.
Definition abs : float -> float := SFabs.
Definition ltb : float -> float -> bool := SFltb.

(** [x > y] *)
Definition gtb (x y : float) : bool := SFltb y x.

(** Python's [max(x, y)] on two arguments: [y] replaces [x] only when
    [y > x], so a NaN in first position stays. *)
Definition max (x y : float) : float := if gtb y x then y else x.

Definition is_finite (x : float) : bool :=
  match x with
  | S754_zero _ | S754_finite _ _ _ => true
  | S754_infinity _ | S754_nan => false
  end.

Definition is_zero (x : float) : bool :=
  match x with
  | S754_zero _ => true
  | _ => false
  end.

(** [round(x, 2)]: a finite [x] is rounded to the nearest multiple of 1/100
    of its exact value, ties to even, and the double nearest to that decimal
    is returned; NaN and the infinities are returned unchanged. *)
Definition round_half_even (n d : Z) : Z :=
  let q := n / d in
  let r := n mod d in
  match 2 * r ?= d with
  | Lt => q
  | Gt => q + 1
  | Eq => if Z.even q then q else q + 1
  end.

Definition round2 (x : float) : float :=
  match x with
  | S754_finite s m e =>
      let hundredths :=
        match e with
        | Zneg k => round_half_even (100 * Zpos m) (2 ^ Zpos k)
        | _ => 100 * Zpos m * 2 ^ e
        end in
      match hundredths with
      | Zpos n => of_ratio s n 100
      | _ => S754_zero s
      end
  | _ => x
  end.

End PyFloat.

(* ================================================================== *)
(** ** Python strings *)

Module PyStr.

Local Open Scope nat_scope.

Definition code (c : ascii) : nat := nat_of_ascii c.

(** [str.isspace] on one character: the white space of Unicode below 256. *)
Definition is_space (c : ascii) : bool :=
  let n := code c in
  ((9 <=? n) && (n <=? 13)) || ((28 <=? n) && (n <=? 32))
  || (n =? 133) || (n =? 160).

(** [str.lower] on one character: the capital letters of Unicode below 256
    are A-Z and the Latin-1 capitals U+00C0-U+00DE other than the
    multiplication sign U+00D7; each is 32 below its small letter. *)
Definition is_upper (c : ascii) : bool :=
  let n := code c in
  ((65 <=? n) && (n <=? 90))
  || ((192 <=? n) && (n <=? 222) && negb (n =? 215)).

Definition lower_char (c : ascii) : ascii :=
  if is_upper c then ascii_of_nat (code c + 32) else c.

Fixpoint lower (s : string) : string :=
  match s with
  | EmptyString => EmptyString
  | String c r => String (lower_char c) (lower r)
  end.

Fixpoint lstrip (s : string) : string :=
  match s with
  | EmptyString => EmptyString
  | String c r => if is_space c then lstrip r else s
  end.

Fixpoint rstrip (s : string) : string :=
  match s with
  | EmptyString => EmptyString
  | String c r =>
      match rstrip r with
      | EmptyString => if is_space c then EmptyString else String c EmptyString
      | r' => String c r'
      end
  end.

(** [s.strip()] *)
Definition strip (s : string) : string := rstrip (lstrip s).

(** [sub in s] *)
Fixpoint contains (sub s : string) : bool :=
  prefix sub s ||
  match s with
  | EmptyString => false
  | String _ r => contains sub r
  end.

(** [s.replace(old, new)]: the occurrences of [old] are found from the left
    and do not overlap.  [skip] counts the characters of the occurrence
    being replaced that are still to be dropped. *)
Fixpoint replace_from (old new : string) (skip : nat) (s : string) : string :=
  match s with
  | EmptyString => EmptyString
  | String c r =>
      match skip with
      | S k => replace_from old new k r
      | O =>
          if prefix old s
          then new ++ replace_from old new (length old - 1) r
          else String c (replace_from old new 0 r)
      end
  end.

(** With an empty [old], Python puts [new] before every character and at
    the end. *)
Fixpoint intersperse (new s : string) : string :=
  match s with
  | EmptyString => new
  | String c r => new ++ String c (intersperse new r)
  end.

Definition replace (old new s : string) : string :=
  match old with
  | EmptyString => intersperse new s
  | _ => replace_from old new 0 s
  end.

(** [s.split()]: the maximal runs of characters that are not white space.
    [w] is the word being read. *)
Fixpoint split_from (w : string) (s : string) : list string :=
  match s with
  | EmptyString =>
      match w with
      | EmptyString => []
      | _ => [w]
      end
  | String c r =>
      if is_space c then
        match w with
        | EmptyString => split_from EmptyString r
        | _ => w :: split_from EmptyString r
        end
      else split_from (w ++ String c EmptyString) r
  end.

Definition split (s : string) : list string := split_from EmptyString s.

(** [sep.join(l)] *)
Definition join (sep : string) (l : list string) : string := concat sep l.

(** [c * n] for a one-character string *)
Fixpoint repeat_char (c : ascii) (n : nat) : string :=
  match n with
  | O => EmptyString
  | S k => String c (repeat_char c k)
  end.

Definition is_digit (c : ascii) : bool :=
  let n := code c in (48 <=? n) && (n <=? 57).

Definition digit_value (c : ascii) : Z := Z.of_nat (code c - 48).

End PyStr.

(* ================================================================== *)
(** ** Conversions between floats and text *)

Module PyConv.

Import PyFloat PyStr.
Local Open Scope Z_scope.

Definition chr (n : nat) : ascii := ascii_of_nat n.

Definition string_of_Z (z : Z) : string := NilZero.string_of_int (Z.to_int z).

(** The double nearest to [m * 10 ^ e], with sign [s]. *)
Definition of_decimal (s : bool) (m e : Z) : float :=
  match m with
  | Zpos p =>
      match e with
      | Zneg k => of_ratio s p (Z.to_pos (10 ^ Zpos k))
      | _ => of_ratio s (Z.to_pos (m * 10 ^ e)) 1
      end
  | _ => S754_zero s
  end.

(** *** [float(text)] *)

(** White space that [float] drops around the number. *)
Definition is_float_space (c : ascii) : bool :=
  let n := code c in
  ((9 <=? n) && (n <=? 13) || (n =? 32) || (n =? 133) || (n =? 160))%nat.

(** An underscore must stand between two digits. *)
Fixpoint underscores_ok (prev : ascii) (s : string) : bool :=
  match s with
  | EmptyString => negb (Ascii.eqb prev "_")
  | String c r =>
      (if Ascii.eqb c "_" then is_digit prev
       else negb (Ascii.eqb prev "_") || is_digit c)
      && underscores_ok c r
  end.

Fixpoint remove_underscores (s : string) : string :=
  match s with
  | EmptyString => EmptyString
  | String c r =>
      if Ascii.eqb c "_" then remove_underscores r
      else String c (remove_underscores r)
  end.

Fixpoint float_lstrip (s : string) : string :=
  match s with
  | EmptyString => EmptyString
  | String c r => if is_float_space c then float_lstrip r else s
  end.

Fixpoint float_rstrip (s : string) : string :=
  match s with
  | EmptyString => EmptyString
  | String c r =>
      match float_rstrip r with
      | EmptyString =>
          if is_float_space c then EmptyString else String c EmptyString
      | r' => String c r'
      end
  end.

(** An optional sign: [true] for minus. *)
Definition read_sign (s : string) : bool * string :=
  match s with
  | String "-" r => (true, r)
  | String "+" r => (false, r)
  | _ => (false, s)
  end.

(** The digits at the head of [s], read onto [acc]; [n] counts them. *)
Fixpoint read_digits (acc : Z) (n : nat) (s : string) : Z * nat * string :=
  match s with
  | String c r =>
      if is_digit c then read_digits (10 * acc + digit_value c) (S n) r
      else (acc, n, s)
  | EmptyString => (acc, n, s)
  end.

(** A decimal number at the head of [s]: sign, mantissa, power of ten and
    what follows it; [None] when no digit is found. *)
Definition read_decimal (s : string) : option (bool * Z * Z * string) :=
  let '(neg, s1) := read_sign s in
  let '(ip, ni, s2) := read_digits 0 0 s1 in
  let '(m, nf, s3) :=
    match s2 with
    | String "." r => read_digits ip 0 r
    | _ => (ip, 0%nat, s2)
    end in
  if (ni + nf =? 0)%nat then None
  else
    let '(e, s4) :=
      match s3 with
      | String c r =>
          if Ascii.eqb c "e" || Ascii.eqb c "E" then
            let '(eneg, r1) := read_sign r in
            let '(ev, ne, r2) := read_digits 0 0 r1 in
            if (ne =? 0)%nat then (0, s3)
            else ((if eneg then - ev else ev), r2)
          else (0, s3)
      | EmptyString => (0, s3)
      end in
    Some (neg, m, e - Z.of_nat nf, s4).

Definition ascii_lower (c : ascii) : ascii :=
  let n := code c in
  if ((65 <=? n) && (n <=? 90))%nat then ascii_of_nat (n + 32) else c.

Fixpoint ascii_lower_string (s : string) : string :=
  match s with
  | EmptyString => EmptyString
  | String c r => String (ascii_lower c) (ascii_lower_string r)
  end.

(** The names of the values that are not numbers, in any letter case. *)
Definition read_inf_or_nan (s : string) : option float :=
  let '(neg, r) := read_sign s in
  let w := ascii_lower_string r in
  if String.eqb w "inf" || String.eqb w "infinity" then Some (S754_infinity neg)
  else if String.eqb w "nan" then Some S754_nan
  else None.

(** [float(s)] for a string [s]; [None] stands for [ValueError].  A number
    too large for a double reads as an infinity. *)
Definition float_of_string (s : string) : option float :=
  if underscores_ok Ascii.zero s then
    match float_rstrip (float_lstrip (remove_underscores s)) with
    | EmptyString => None
    | t =>
        match read_decimal t with
        | Some (neg, m, e, EmptyString) => Some (of_decimal neg m e)
        | Some _ => None
        | None => read_inf_or_nan t
        end
    end
  else None.

(** *** [repr(x)] for a float *)

(** The least [d], counted up from [d], with [num / den < 10 ^ d]. *)
Fixpoint decpt_up (fuel : nat) (num den d : Z) : Z :=
  match fuel with
  | O => d
  | S k => if num <? den * 10 ^ d then d else decpt_up k num den (d + 1)
  end.

(** The least [d], counted down from [d <= 0], with [num / den < 10 ^ d]. *)
Fixpoint decpt_down (fuel : nat) (num den d : Z) : Z :=
  match fuel with
  | O => d
  | S k =>
      if num * 10 ^ (1 - d) <? den then decpt_down k num den (d - 1) else d
  end.

Definition decpt_of (num den : Z) : Z :=
  if num <? den then decpt_down 400 num den 0 else decpt_up 400 num den 1.

(** The shortest decimal that reads back as [x = num / den]: for each
    number of digits [k] in turn, the two [k]-digit decimals around [x] are
    tried, the nearer first.  The result is the integer [c] and the power
    [p] with [x] printed as [c * 10 ^ p]. *)
Fixpoint shortest_from (x : float) (num den d : Z) (ks : list Z) : Z * Z :=
  match ks with
  | [] => (0, 0)
  | k :: rest =>
      let n := if d <=? k then num * 10 ^ (k - d) else num in
      let dn := if d <=? k then den else den * 10 ^ (d - k) in
      let lo := n / dn in
      let hi := lo + 1 in
      let ok c := SFeqb (of_decimal false c (d - k)) x in
      let nearer :=
        match 2 * (n mod dn) ?= dn with
        | Lt => lo
        | Gt => hi
        | Eq => if Z.even lo then lo else hi
        end in
      match rest with
      | [] => (nearer, d - k)
      | _ =>
          if ok lo && ok hi then (nearer, d - k)
          else if ok lo then (lo, d - k)
          else if ok hi then (hi, d - k)
          else shortest_from x num den d rest
      end
  end.

Fixpoint strip_zeros_rev (s : list ascii) : list ascii :=
  match s with
  | "0"%char :: r => strip_zeros_rev r
  | _ => s
  end.

(** The digits of [c] without the zeros at their end. *)
Definition significant_digits (c : Z) : string :=
  string_of_list_ascii
    (rev (strip_zeros_rev (rev (list_ascii_of_string (string_of_Z c))))).

Definition pad2 (s : string) : string :=
  if (String.length s <? 2)%nat then "0" ++ s else s.

(** The digits [ds], read as [0.ds * 10 ^ decpt], laid out as [repr] does:
    with an exponent when [decpt] is at most -4 or above 16. *)
Definition layout (ds : string) (decpt : Z) : string :=
  let nd := Z.of_nat (String.length ds) in
  if (decpt <=? -4) || (16 <? decpt) then
    let mant :=
      match ds with
      | String c EmptyString => ds
      | String c r => String c ("." ++ r)
      | EmptyString => ds
      end in
    let e := decpt - 1 in
    mant ++ "e" ++ (if e <? 0 then "-" else "+")
         ++ pad2 (string_of_Z (Z.abs e))
  else if decpt <=? 0 then
    "0." ++ repeat_char "0" (Z.to_nat (- decpt)) ++ ds
  else if decpt <? nd then
    substring 0 (Z.to_nat decpt) ds ++ "."
      ++ substring (Z.to_nat decpt) (Z.to_nat (nd - decpt)) ds
  else
    ds ++ repeat_char "0" (Z.to_nat (decpt - nd)) ++ ".0".

Definition float_repr (x : float) : string :=
  match x with
  | S754_nan => "nan"
  | S754_infinity s => if s then "-inf" else "inf"
  | S754_zero s => if s then "-0.0" else "0.0"
  | S754_finite s m e =>
      let num := match e with Zneg _ => Zpos m | _ => Zpos m * 2 ^ e end in
      let den := match e with Zneg k => 2 ^ Zpos k | _ => 1 end in
      let d := decpt_of num den in
      let '(c, p) :=
        shortest_from (S754_finite false m e) num den d
          [1; 2; 3; 4; 5; 6; 7; 8; 9; 10; 11; 12; 13; 14; 15; 16; 17] in
      let all := string_of_Z c in
      let decpt := p + Z.of_nat (String.length all) in
      (if s then "-" else "") ++ layout (significant_digits c) decpt
  end.

End PyConv.

(* ================================================================== *)
(** ** Python values, exceptions and the built-ins the validator calls *)

Module Py.

Import PyFloat PyStr PyConv.
Local Open Scope string_scope.

#[local] Set Warnings "-register-all".

(** What [json.loads] produces: the raw records the extraction stage hands
    over.  A dict keeps its keys in insertion order and holds each key
    once. *)
Inductive pyval : Type :=
| PNone
| PBool (b : bool)
| PInt (z : Z)
| PFloat (f : float)
| PStr (s : string)
| PList (l : list pyval)
| PDict (d : list (string * pyval)).

Inductive exn : Type :=
| AttributeError
| TypeError
| ValueError
| OverflowError.

Inductive result (A : Type) : Type :=
| Ok (a : A)
| Raise (e : exn).

Arguments Ok {A} a.
Arguments Raise {A} e.

Definition bind {A B : Type} (c : result A) (k : A -> result B) : result B :=
  match c with
  | Ok a => k a
  | Raise e => Raise e
  end.

(** [try: body / except caught: handler] *)
Definition try_except {A : Type}
    (body : result A) (caught : exn -> bool) (handler : result A) : result A :=
  match body with
  | Ok a => Ok a
  | Raise e => if caught e then handler else Raise e
  end.

(** *** [repr] and [str] *)

Definition quote1 : ascii := chr 39.
Definition quote2 : ascii := chr 34.
Definition backslash : ascii := chr 92.

Fixpoint has_char (c : ascii) (s : string) : bool :=
  match s with
  | EmptyString => false
  | String a r => Ascii.eqb a c || has_char c r
  end.

Definition is_printable (c : ascii) : bool :=
  let n := code c in
  (((32 <=? n) && (n <=? 126)) || ((161 <=? n) && negb (n =? 173)))%nat.

Definition hex_digit (n : nat) : ascii :=
  if (n <? 10)%nat then chr (48 + n) else chr (87 + n).

Definition escape_char (q c : ascii) : string :=
  let n := code c in
  if Ascii.eqb c q || Ascii.eqb c backslash then String backslash (String c EmptyString)
  else if (n =? 9)%nat then String backslash "t"
  else if (n =? 10)%nat then String backslash "n"
  else if (n =? 13)%nat then String backslash "r"
  else if is_printable c then String c EmptyString
  else String backslash
         (String "x" (String (hex_digit (n / 16)) (String (hex_digit (n mod 16)) EmptyString))).

Fixpoint escape (q : ascii) (s : string) : string :=
  match s with
  | EmptyString => EmptyString
  | String c r => escape_char q c ++ escape q r
  end.

(** [repr(s)] for a string: single quotes, unless the text holds a single
    quote and no double quote. *)
Definition str_repr (s : string) : string :=
  let q := if has_char quote1 s && negb (has_char quote2 s) then quote2 else quote1 in
  String q (escape q s ++ String q EmptyString).

Fixpoint py_repr (v : pyval) : string :=
  match v with
  | PNone => "None"
  | PBool b => if b then "True" else "False"
  | PInt z => string_of_Z z
  | PFloat f => float_repr f
  | PStr s => str_repr s
  | PList l => "[" ++ join ", " (map py_repr l) ++ "]"
  | PDict d =>
      "{" ++ join ", " (map (fun kv => match kv with
                                       | (k, x) => str_repr k ++ ": " ++ py_repr x
                                       end) d) ++ "}"
  end.

(** [str(v)].  It raises nothing (the limit some Python versions put on
    the number of digits of an integer is not modelled). *)
Definition py_str (v : pyval) : string :=
  match v with
  | PStr s => s
  | _ => py_repr v
  end.

(** *** [float(v)] *)

Definition py_float (v : pyval) : result float :=
  match v with
  | PFloat f => Ok f
  | PBool b => Ok (of_Z (if b then 1 else 0))
  | PInt z =>
      match of_Z z with
      | S754_infinity _ => Raise OverflowError
      | f => Ok f
      end
  | PStr s =>
      match float_of_string s with
      | Some f => Ok f
      | None => Raise ValueError
      end
  | PNone | PList _ | PDict _ => Raise TypeError
  end.

(** *** [d.get(key, default)] and iteration *)

Fixpoint dict_lookup (key : string) (d : list (string * pyval)) : option pyval :=
  match d with
  | [] => None
  | (k, x) :: r => if String.eqb k key then Some x else dict_lookup key r
  end.

(** Only a dict has a [get] method. *)
Definition py_get (v : pyval) (key : string) (default : pyval) : result pyval :=
  match v with
  | PDict d =>
      Ok (match dict_lookup key d with
          | Some x => x
          | None => default
          end)
  | _ => Raise AttributeError
  end.

Fixpoint chars (s : string) : list pyval :=
  match s with
  | EmptyString => []
  | String c r => PStr (String c EmptyString) :: chars r
  end.

(** The values a [for] loop over [v] visits: the elements of a list, the
    characters of a string, the keys of a dict; nothing else the model holds
    is iterable. *)
Definition py_iter (v : pyval) : result (list pyval) :=
  match v with
  | PList l => Ok l
  | PStr s => Ok (chars s)
  | PDict d => Ok (map (fun kv => PStr (fst kv)) d)
  | PNone | PBool _ | PInt _ | PFloat _ => Raise TypeError
  end.

End Py.

Declare Scope py_scope.
Delimit Scope py_scope with py.
Notation "x <- c ;; k" := (Py.bind c (fun x => k))
  (at level 61, c at next level, right associativity) : py_scope.

(* ================================================================== *)
(** ** [services/validator.py]: class [ValidationEngine] *)

Module ValidationEngine.

Import PyFloat PyStr Py.
Local Open Scope string_scope.
Local Open Scope py_scope.

(** A validated line item: the dict [_validate_item] returns. *)
Record LineItem : Type := {
  item_name : string;
  item_amount : float;
  item_rate : float;
  item_quantity : float
}.

(** The three texts [_normalize_page_type] returns. *)
Inductive PageType : Type :=
| BillDetail
| FinalBill
| Pharmacy.

Definition page_type_text (t : PageType) : string :=
  match t with
  | BillDetail => "Bill Detail"
  | FinalBill => "Final Bill"
  | Pharmacy => "Pharmacy"
  end.

(** A validated page: the dict [_validate_page] returns. *)
Record Page : Type := {
  page_no : string;
  page_type : PageType;
  bill_items : list LineItem
}.

(** An entry of [seen_items]: a copy of a kept item with the number of the
    page it was kept on. *)
Record SeenItem : Type := {
  seen_item : LineItem;
  seen_page_no : string
}.

(** [self.similarity_threshold = 0.8] *)
Definition similarity_threshold : float := lit 8 10.

Definition total_keywords : list string :=
  [ "total"; "subtotal"; "sub-total"; "grand total";
    "final total"; "net amount"; "amount due";
    "balance"; "sum"; "total amount"; "final amount" ].

(** [x in l] for a list of strings *)
Fixpoint str_in (x : string) (l : list string) : bool :=
  match l with
  | [] => false
  | y :: r => String.eqb x y || str_in x r
  end.

(** The [for keyword in total_keywords] loop of [_is_total_or_subtotal]. *)
Fixpoint total_keyword_loop (item_lower : string) (keywords : list string) : bool :=
  match keywords with
  | [] => false
  | keyword :: rest =>
      if contains keyword item_lower && (String.length item_lower <? 30)%nat then
        if str_in (strip (replace keyword "" item_lower)) [ ""; "-"; ":"; "=" ]
        then true
        else total_keyword_loop item_lower rest
      else total_keyword_loop item_lower rest
  end.

Definition _is_total_or_subtotal (item_name : string) : bool :=
  let item_lower := strip (lower item_name) in
  total_keyword_loop item_lower total_keywords.

(** [page_type.lower()] needs a string. *)
Definition _normalize_page_type (page_type : pyval) : result PageType :=
  match page_type with
  | PStr s =>
      let page_type_lower := strip (lower s) in
      if contains "pharmacy" page_type_lower then Ok Pharmacy
      else if contains "final" page_type_lower then Ok FinalBill
      else Ok BillDetail
  | _ => Raise AttributeError
  end.

(** The exceptions the [try] of [_validate_item] catches. *)
Definition value_or_type_error (e : exn) : bool :=
  match e with
  | ValueError | TypeError => true
  | AttributeError | OverflowError => false
  end.

(** The body of the [try] of [_validate_item]: the three [float(...)]
    calls, in the order they are made. *)
Definition numeric_fields (item : pyval) : result (float * float * float) :=
  amount_value <- py_get item "item_amount" (PFloat zero) ;;
  item_amount <- py_float amount_value ;;
  rate_value <- py_get item "item_rate" (PFloat zero) ;;
  item_rate <- py_float rate_value ;;
  quantity_value <- py_get item "item_quantity" (PFloat zero) ;;
  item_quantity <- py_float quantity_value ;;
  Ok (item_amount, item_rate, item_quantity).

Definition _validate_item (item : pyval) : result (option LineItem) :=
  name_value <- py_get item "item_name" (PStr "") ;;
  let item_name := strip (py_str name_value) in
  if String.eqb item_name "" || (String.length item_name <? 2)%nat then Ok None
  else if _is_total_or_subtotal item_name then Ok None
  else
    numbers <-
      try_except
        (fields <- numeric_fields item ;; Ok (Some fields))
        value_or_type_error
        (Ok None) ;;
    match numbers with
    | None => Ok None
    | Some (item_amount, item_rate, item_quantity) =>
        Ok (Some {| item_name := item_name;
                    item_amount := item_amount;
                    item_rate := item_rate;
                    item_quantity := item_quantity |})
    end.

(** The [for item in bill_items] loop of [_validate_page]; [validated] is
    the list [validated_page["bill_items"]] built so far. *)
Fixpoint validate_items_loop (items : list pyval) (validated : list LineItem)
    : result (list LineItem) :=
  match items with
  | [] => Ok validated
  | item :: rest =>
      validated_item <- _validate_item item ;;
      match validated_item with
      | Some li => validate_items_loop rest (validated ++ [li])
      | None => validate_items_loop rest validated
      end
  end.

Definition _validate_page (page : pyval) : result Page :=
  no_value <- py_get page "page_no" (PStr "1") ;;
  type_value <- py_get page "page_type" (PStr "Bill Detail") ;;
  normalized <- _normalize_page_type type_value ;;
  items_value <- py_get page "bill_items" (PList []) ;;
  items <- py_iter items_value ;;
  validated <- validate_items_loop items [] ;;
  Ok {| page_no := py_str no_value;
        page_type := normalized;
        bill_items := validated |}.

(** [set(name.split())], a list without repetition. *)
Definition word_set (name : string) : set string :=
  fold_right (set_add string_dec) (empty_set string) (split name).

Definition _calculate_name_similarity (name1 name2 : string) : float :=
  let words1 := word_set name1 in
  let words2 := word_set name2 in
  match words1, words2 with
  | [], _ | _, [] => zero
  | _, _ =>
      let intersection := List.length (set_inter string_dec words1 words2) in
      let union := List.length (set_union string_dec words1 words2) in
      if (union =? 0)%nat then zero
      else lit (Z.of_nat intersection) (Pos.of_nat union)
  end.

Definition _are_items_duplicate (item1 item2 : LineItem) : bool :=
  let name1 := strip (lower (item_name item1)) in
  let name2 := strip (lower (item_name item2)) in
  if String.eqb name1 name2 then true
  else
    let name_similarity := _calculate_name_similarity name1 name2 in
    let amount_diff := abs (sub (item_amount item1) (item_amount item2)) in
    if gtb name_similarity similarity_threshold then
      if ltb amount_diff (lit 1 100)
         || ltb (div amount_diff (max (abs (item_amount item1)) (lit 1 100)))
                (lit 5 100)
      then true
      else false
    else false.

(** The [for seen_item in seen_items] loop of [_deduplicate_items]: the
    value of [is_duplicate] when the loop ends or breaks. *)
Fixpoint is_duplicate (item : LineItem) (seen_items : list SeenItem) : bool :=
  match seen_items with
  | [] => false
  | seen :: rest =>
      if _are_items_duplicate item (seen_item seen) then true
      else is_duplicate item rest
  end.

(** The [for item in page["bill_items"]] loop: [seen_items] and the item
    list of [deduplicated_page] as the loop leaves them. *)
Fixpoint dedup_items_loop (no : string) (items : list LineItem)
    (seen_items : list SeenItem) (kept : list LineItem)
    : list SeenItem * list LineItem :=
  match items with
  | [] => (seen_items, kept)
  | item :: rest =>
      if is_duplicate item seen_items
      then dedup_items_loop no rest seen_items kept
      else
        let item_with_page := {| seen_item := item; seen_page_no := no |} in
        dedup_items_loop no rest (seen_items ++ [item_with_page]) (kept ++ [item])
  end.

(** The [for page in pages] loop. *)
Fixpoint dedup_pages_loop (pages : list Page)
    (seen_items : list SeenItem) (deduplicated_pages : list Page) : list Page :=
  match pages with
  | [] => deduplicated_pages
  | page :: rest =>
      let '(seen_items', kept) :=
        dedup_items_loop (page_no page) (bill_items page) seen_items [] in
      let deduplicated_page :=
        {| page_no := page_no page;
           page_type := page_type page;
           bill_items := kept |} in
      dedup_pages_loop rest seen_items' (deduplicated_pages ++ [deduplicated_page])
  end.

Definition _deduplicate_items (pages : list Page) : list Page :=
  dedup_pages_loop pages [] [].

(** The [for page in pagewise_line_items] loop of [validate_and_deduplicate]. *)
Fixpoint validate_pages_loop (pages : list pyval) (validated_pages : list Page)
    : result (list Page) :=
  match pages with
  | [] => Ok validated_pages
  | page :: rest =>
      validated_page <- _validate_page page ;;
      validate_pages_loop rest (validated_pages ++ [validated_page])
  end.

Definition validate_and_deduplicate (pagewise_line_items : list pyval)
    : result (list Page) :=
  match pagewise_line_items with
  | [] => Ok []
  | _ =>
      validated_pages <- validate_pages_loop pagewise_line_items [] ;;
      Ok (_deduplicate_items validated_pages)
  end.

End ValidationEngine.

(* ================================================================== *)
(** ** [main.py]: steps 3 to 5 of [process_invoice_request] *)

Module Main.

Import PyFloat Py ValidationEngine.
Local Open Scope py_scope.

(** [sum(len(page_group["bill_items"]) for page_group in clean_data)] *)
Fixpoint item_count_total (clean_data : list Page) : nat :=
  match clean_data with
  | [] => 0
  | page_group :: rest => List.length (bill_items page_group) + item_count_total rest
  end.

(** The inner loop of step 5. *)
Fixpoint add_entries (entries : list LineItem) (calculated_total_sum : float) : float :=
  match entries with
  | [] => calculated_total_sum
  | entry :: rest => add_entries rest (add calculated_total_sum (item_amount entry))
  end.

(** The outer loop of step 5. *)
Fixpoint add_pages (clean_data : list Page) (calculated_total_sum : float) : float :=
  match clean_data with
  | [] => calculated_total_sum
  | page_group :: rest =>
      add_pages rest (add_entries (bill_items page_group) calculated_total_sum)
  end.

Definition calculated_total_sum (clean_data : list Page) : float :=
  round2 (add_pages clean_data zero).

(** [ProcessedResult] *)
Record ProcessedResult : Type := {
  pagewise_line_items : list Page;
  total_item_count : nat;
  reconciled_amount : float
}.

(** Steps 3 to 5: validation and deduplication, then the two totals. *)
Definition reconcile (pages : list pyval) : result ProcessedResult :=
  clean_data <- validate_and_deduplicate pages ;;
  Ok {| pagewise_line_items := clean_data;
        total_item_count := item_count_total clean_data;
        reconciled_amount := calculated_total_sum clean_data |}.

End Main.

(* ================================================================== *)
(** ** More string methods: slices, searches, splits *)

Module PySlice.

Import PyStr.
Local Open Scope string_scope.

(** [s[n:]] *)
Fixpoint drop (n : nat) (s : string) : string :=
  match n, s with
  | S k, String _ r => drop k r
  | _, _ => s
  end.

(** [s[:n]] *)
Fixpoint take (n : nat) (s : string) : string :=
  match n, s with
  | S k, String c r => String c (take k r)
  | _, _ => EmptyString
  end.

(** [s[:-n]] for a positive [n] *)
Definition drop_last (n : nat) (s : string) : string :=
  take (String.length s - n) s.

(** [s[start:stop]] for [0 <= start] and [0 <= stop] *)
Definition slice (start stop : Z) (s : string) : string :=
  take (Z.to_nat (stop - start)) (drop (Z.to_nat start) s).

(** [s.startswith(p)] *)
Definition startswith (p s : string) : bool := prefix p s.

(** [s.endswith(p)]: [p] is one of the suffixes of [s]. *)
Fixpoint endswith (p s : string) : bool :=
  String.eqb p s ||
  match s with
  | EmptyString => false
  | String _ r => endswith p r
  end.

(** [s.find(sub)]: the index of the first occurrence, or -1; [i] is the
    index of the head of [s]. *)
Fixpoint find_from (sub s : string) (i : Z) : Z :=
  if prefix sub s then i
  else match s with
       | EmptyString => (-1)%Z
       | String _ r => find_from sub r (i + 1)%Z
       end.

Definition find (sub s : string) : Z := find_from sub s 0.

(** [s.rfind(sub)]: the index of the last occurrence, or -1. *)
Fixpoint rfind_from (sub s : string) (i : Z) : Z :=
  match s with
  | EmptyString => if prefix sub s then i else (-1)%Z
  | String _ r =>
      let later := rfind_from sub r (i + 1)%Z in
      if (0 <=? later)%Z then later
      else if prefix sub s then i else (-1)%Z
  end.

Definition rfind (sub s : string) : Z := rfind_from sub s 0.

(** [s.split(sep)] for a separator of one character; [w] is the part being
    read.  The result is never empty. *)
Fixpoint split_on_from (sep : ascii) (w s : string) : list string :=
  match s with
  | EmptyString => [w]
  | String c r =>
      if Ascii.eqb c sep then w :: split_on_from sep EmptyString r
      else split_on_from sep (w ++ String c EmptyString) r
  end.

Definition split_on (sep : ascii) (s : string) : list string :=
  split_on_from sep EmptyString s.

End PySlice.

(* ================================================================== *)
(** ** [services/extractor.py]: class [BillExtractor]

    [services/extraction_service.py], class [ExtractionService], has the
    same method bodies.  The call of the language model and [json.loads] are
    not modelled: the page record is taken as parsed. *)

Module BillExtractor.

Import PyFloat PyStr PySlice Py ValidationEngine.
Local Open Scope string_scope.
Local Open Scope py_scope.

Definition _extract_json_from_response (content : string) : string :=
  let content := strip content in
  let content :=
    if startswith "```json" content then drop 7 content
    else if startswith "```" content then drop 3 content
    else content in
  let content :=
    if endswith "```" content then drop_last 3 content else content in
  let content := strip content in
  let start_idx := find "{" content in
  let end_idx := (rfind "}" content + 1)%Z in
  if (0 <=? start_idx)%Z && (start_idx <? end_idx)%Z
  then slice start_idx end_idx content
  else content.

(** [d[key] = x]: the value of an existing key is replaced in place, a new
    key goes to the end. *)
Fixpoint dict_set (key : string) (x : pyval) (d : list (string * pyval))
    : list (string * pyval) :=
  match d with
  | [] => [ (key, x) ]
  | (k, y) :: r =>
      if String.eqb k key then (k, x) :: r else (k, y) :: dict_set key x r
  end.

(** [d.setdefault(key, x)] *)
Definition dict_setdefault (key : string) (x : pyval) (d : list (string * pyval))
    : list (string * pyval) :=
  match dict_lookup key d with
  | Some _ => d
  | None => dict_set key x d
  end.

(** [d[key]] for a key that [d] holds ([KeyError] does not arise where this
    is used: the key has just been set). *)
Definition dict_item (key : string) (d : list (string * pyval)) : pyval :=
  match dict_lookup key d with
  | Some x => x
  | None => PNone
  end.

(** The [except (ValueError, TypeError)] branch: the three numbers are put
    to 0.0. *)
Definition zero_numbers (d : list (string * pyval)) : list (string * pyval) :=
  dict_set "item_quantity" (PFloat zero)
    (dict_set "item_rate" (PFloat zero)
       (dict_set "item_amount" (PFloat zero) d)).

(** The [try] of the item loop: the three fields are converted and stored
    one after the other. *)
Definition convert_numbers (d : list (string * pyval))
    : result (list (string * pyval)) :=
  match py_float (dict_item "item_amount" d) with
  | Raise e => if value_or_type_error e then Ok (zero_numbers d) else Raise e
  | Ok a =>
      let d1 := dict_set "item_amount" (PFloat a) d in
      match py_float (dict_item "item_rate" d1) with
      | Raise e => if value_or_type_error e then Ok (zero_numbers d1) else Raise e
      | Ok r =>
          let d2 := dict_set "item_rate" (PFloat r) d1 in
          match py_float (dict_item "item_quantity" d2) with
          | Raise e =>
              if value_or_type_error e then Ok (zero_numbers d2) else Raise e
          | Ok q => Ok (dict_set "item_quantity" (PFloat q) d2)
          end
      end
  end.

(** The body of [for item in page_data["bill_items"]]: only a dict has
    [setdefault]. *)
Definition prepare_item (item : pyval) : result pyval :=
  match item with
  | PDict d =>
      let d := dict_setdefault "item_name" (PStr "") d in
      let d := dict_setdefault "item_amount" (PFloat zero) d in
      let d := dict_setdefault "item_rate" (PFloat zero) d in
      let d := dict_setdefault "item_quantity" (PFloat zero) d in
      d' <- convert_numbers d ;;
      Ok (PDict d')
  | _ => Raise AttributeError
  end.

Fixpoint prepare_items_loop (items : list pyval) : result (list pyval) :=
  match items with
  | [] => Ok []
  | item :: rest =>
      item' <- prepare_item item ;;
      rest' <- prepare_items_loop rest ;;
      Ok (item' :: rest')
  end.

(** Lines 88 to 103 of [_extract_page_data]: what is done to the parsed
    record before it is returned.  On anything but a dict the membership
    test, the assignment or the subscript raises [TypeError].  The items are
    changed in place, so a list of items holds the prepared items
    afterwards; a string or a dict is left as it is (the loop passes over it
    only when it is empty). *)
Definition prepare_page_data (page_data : pyval) : result pyval :=
  match page_data with
  | PDict d =>
      let d := dict_setdefault "bill_items" (PList []) d in
      let items_value := dict_item "bill_items" d in
      items <- py_iter items_value ;;
      items' <- prepare_items_loop items ;;
      match items_value with
      | PList _ => Ok (PDict (dict_set "bill_items" (PList items') d))
      | _ => Ok (PDict d)
      end
  | _ => Raise TypeError
  end.

(** The record both [except] clauses return. *)
Definition fallback_page (page_no : string) : pyval :=
  PDict [ ("page_no", PStr page_no); ("page_type", PStr "Bill Detail");
          ("bill_items", PList []) ].

(** [_extract_page_data] from the parsed record on: [except Exception]
    turns every exception into the fallback page. *)
Definition _extract_page_data (page_no : string) (page_data : pyval) : pyval :=
  match prepare_page_data page_data with
  | Ok page => page
  | Raise _ => fallback_page page_no
  end.

End BillExtractor.

(* ================================================================== *)
(** ** [services/doc_reader.py]: class [DocReader]

    [services/document_processor.py], class [DocumentProcessor], has the
    same method bodies.  Bytes are strings of characters below 256.  The
    download and the decoding of images are not modelled: of
    [process_document] the model keeps the checks made on the downloaded
    content and the choice of the branch, of [_process_image] the checks
    made before the image is opened. *)

Module DocReader.

Import PyStr PySlice PyConv Py.
Local Open Scope string_scope.

Definition _get_file_extension (url : string) : string :=
  let url_path := hd EmptyString (split_on "?" url) in
  if contains "." url_path
  then "." ++ lower (last (split_on "." url_path) EmptyString)
  else EmptyString.

(** The branch [process_document] takes. *)
Inductive Route : Type :=
| AsPdf
| AsImage
| AsImageFallback.

Definition png_magic : string :=
  String (chr 137) ("PNG" ++ String (chr 13) (String (chr 10)
    (String (chr 26) (String (chr 10) EmptyString)))).

Definition jpeg_magic : string :=
  String (chr 255) (String (chr 216) (String (chr 255) EmptyString)).

Definition tiff_magic_little : string := "II*" ++ String (chr 0) EmptyString.
Definition tiff_magic_big : string := "MM" ++ String (chr 0) "*".

(** [bytes.lower]: only A-Z change. *)
Definition bytes_lower (b : string) : string := ascii_lower_string b.

(** Lines 34 to 79 of [process_document]: [header] is the value of the
    content-type header when the response has one, [content] the body. *)
Definition route_document (header : option string) (content url : string)
    : result Route :=
  let content_type :=
    lower (match header with Some h => h | None => EmptyString end) in
  let content_preview :=
    if (500 <? String.length content)%nat then take 500 content else content in
  if contains "text/html" content_type
     || startswith "<!DOCTYPE" content_preview
     || startswith "<html" content_preview
     || contains "<html" (bytes_lower content_preview)
  then Raise ValueError
  else if (String.length content <? 100)%nat then Raise ValueError
  else
    let file_extension := _get_file_extension url in
    if startswith "%PDF" content then Ok AsPdf
    else if startswith png_magic content then Ok AsImage
    else if startswith jpeg_magic content then Ok AsImage
    else if startswith tiff_magic_little content
            || startswith tiff_magic_big content then Ok AsImage
    else if contains "pdf" content_type || String.eqb file_extension ".pdf"
    then Ok AsPdf
    else if existsb (fun img_type => contains img_type content_type)
                    [ "image"; "png"; "jpg"; "jpeg" ]
    then Ok AsImage
    else Ok AsImageFallback.

(** The two checks [_process_image] makes before it opens the image. *)
Definition image_checks (image_content : string) : result unit :=
  if (String.length image_content <? 100)%nat then Raise ValueError
  else if startswith "<!DOCTYPE" (take 100 image_content)
          || startswith "<html" (take 100 image_content)
          || contains "<html" (bytes_lower (take 500 image_content))
  then Raise ValueError
  else Ok tt.

End DocReader.

(* ================================================================== *)
(** ** [main.py]: the guard and the handlers around steps 3 to 5 *)

Module Endpoint.

Import Py ValidationEngine Main.

(** How [process_invoice_request] leaves steps 2 to 5. *)
Inductive Outcome : Type :=
| ExtractionFailed                 (* HTTP 500, raised at step 2 *)
| InternalError (e : exn)          (* HTTP 500, from [except Exception] *)
| Reconciled (r : ProcessedResult).

(** Lines 122 to 145 with the two [except] clauses, for the page list
    [llm_output["pagewise_line_items"]] of a reply that has one. *)
Definition steps_2_to_5 (pagewise_line_items : list pyval) : Outcome :=
  match pagewise_line_items with
  | [] => ExtractionFailed
  | _ =>
      match reconcile pagewise_line_items with
      | Ok r => Reconciled r
      | Raise e => InternalError e
      end
  end.

End Endpoint.

(* ================================================================== *)
(** ** Definitions used to state the properties *)

Module Spec.

Import PyFloat PyStr Py ValidationEngine.
Local Open Scope string_scope.

(** A validated item handed back to the validator as a raw record. *)
Definition raw_of_item (li : LineItem) : pyval :=
  PDict [ ("item_name", PStr (item_name li));
          ("item_amount", PFloat (item_amount li));
          ("item_rate", PFloat (item_rate li));
          ("item_quantity", PFloat (item_quantity li)) ].

(** A raw item record with the four fields the extraction stage names. *)
Definition raw_item (name amount rate quantity : pyval) : pyval :=
  PDict [ ("item_name", name); ("item_amount", amount);
          ("item_rate", rate); ("item_quantity", quantity) ].

Definition line_item (name : string) (amount : float) : LineItem :=
  {| item_name := name; item_amount := amount;
     item_rate := zero; item_quantity := zero |}.

(** The page [p] with another item list. *)
Definition with_items (p : Page) (items : list LineItem) : Page :=
  {| page_no := page_no p; page_type := page_type p; bill_items := items |}.

(** The elements of [l] at the positions where [mask] is [true]. *)
Fixpoint select {A : Type} (mask : list bool) (l : list A) : list A :=
  match mask, l with
  | b :: m, x :: r => if b then x :: select m r else select m r
  | _, _ => []
  end.

(** The items of all pages in scan order: page by page, each page in its
    own order. *)
Definition all_items (pages : list Page) : list LineItem :=
  List.concat (map bill_items pages).

(** The flags of a scan that starts with the items [seen] kept: an item is
    flagged when none of the items kept before it matches it. *)
Fixpoint flags_from (seen items : list LineItem) : list bool :=
  match items with
  | [] => []
  | item :: rest =>
      if existsb (_are_items_duplicate item) seen
      then false :: flags_from seen rest
      else true :: flags_from (seen ++ [item]) rest
  end.

(** The flags of the same scan page by page: one mask for each page. *)
Fixpoint masks_from (seen : list LineItem) (pages : list Page) : list (list bool) :=
  match pages with
  | [] => []
  | page :: rest =>
      let mask := flags_from seen (bill_items page) in
      mask :: masks_from (seen ++ select mask (bill_items page)) rest
  end.

(** The amount closeness test of the scorer, for the amounts [a1] of its
    first argument and [a2] of its second. *)
Definition amounts_close (a1 a2 : float) : bool :=
  let amount_diff := abs (sub a1 a2) in
  ltb amount_diff (lit 1 100)
  || ltb (div amount_diff (max (abs a1) (lit 1 100))) (lit 5 100).

(** The sum of the amounts of [items], added from the left onto [acc]. *)
Definition sum_amounts (items : list LineItem) (acc : float) : float :=
  fold_left (fun s item => add s (item_amount item)) items acc.

(** What the length test of [_validate_item] sees of a raw name value. *)
Definition name_too_short (name_value : pyval) : bool :=
  (String.length (strip (py_str name_value)) <? 2)%nat.

(** The value [item.get("item_name", "")] of a dict. *)
Definition name_value_of (d : list (string * pyval)) : pyval :=
  match dict_lookup "item_name" d with
  | Some x => x
  | None => PStr ""
  end.

(** The pair of the specification's example of a near match. *)
Definition paracetamol_tab : LineItem := line_item "Paracetamol Tab" (lit 100 1).
Definition paracetamol_tablet : LineItem := line_item "Paracetamol Tablet" (lit 1005 10).

(** A pair of near matches whose verdict depends on the order. *)
Definition strip_of_ten : LineItem :=
  line_item "Paracetamol 500 mg tab strip" (lit 100 1).
Definition strip_of_ten_10s : LineItem :=
  line_item "Paracetamol 500 mg tab strip 10s" (lit 951 10).

(** The entry the scan adds to [seen_items] for an item kept on page [no]. *)
Definition tag (no : string) (item : LineItem) : SeenItem :=
  {| seen_item := item; seen_page_no := no |}.

(** A page with the items its mask selects. *)
Definition masked (mp : list bool * Page) : Page :=
  with_items (snd mp) (select (fst mp) (bill_items (snd mp))).

(** The raw items of a raw page: what the loop of [_validate_page] visits. *)
Definition raw_item_in (page raw : pyval) : Prop :=
  exists items_value items,
    py_get page "bill_items" (PList []) = Ok items_value /\
    py_iter items_value = Ok items /\
    In raw items.

(** The value [item.get(key, 0.0)] of a dict. *)
Definition raw_number (d : list (string * pyval)) (key : string) : pyval :=
  match dict_lookup key d with
  | Some x => x
  | None => PFloat zero
  end.

(** The raw values that [float] turns into a finite number whenever it
    returns: booleans, integers and finite floats. *)
Definition finite_source (v : pyval) : bool :=
  match v with
  | PBool _ | PInt _ => true
  | PFloat f => is_finite f
  | PNone | PStr _ | PList _ | PDict _ => false
  end.

(** The example of the specification's reconciliation property: three
    pages, the second repeating the item of the first. *)
Definition reconciliation_example : list pyval :=
  [ PDict [ ("page_no", PStr "1"); ("page_type", PStr "Bill Detail");
            ("bill_items",
             PList [ raw_item (PStr "Consultation") (PFloat (lit 105 10))
                              (PFloat zero) (PFloat zero) ]) ];
    PDict [ ("page_no", PStr "2"); ("page_type", PStr "Final Bill");
            ("bill_items",
             PList [ raw_item (PStr "Consultation") (PFloat (lit 105 10))
                              (PFloat zero) (PFloat zero) ]) ];
    PDict [ ("page_no", PStr "3"); ("page_type", PStr "Pharmacy");
            ("bill_items",
             PList [ raw_item (PStr "Syringe 5ml") (PFloat (lit 20 1))
                              (PFloat zero) (PFloat zero) ]) ] ].




End Spec.

(* ================================================================== *)
(** ** Definitions used to state further properties *)

Module Props.

Import PyFloat PyStr PySlice Py ValidationEngine Main Spec.
Local Open Scope string_scope.
Local Open Scope list_scope.

(** No item of [l] matches an item that stands before it. *)
Definition no_earlier_match (l : list LineItem) : Prop :=
  forall i j item earlier,
    j < i ->
    nth_error l i = Some item ->
    nth_error l j = Some earlier ->
    _are_items_duplicate item earlier = false.

(** An item the item validator can return. *)
Definition valid_item (li : LineItem) : Prop :=
  exists raw, _validate_item raw = Ok (Some li).

(** A validated page handed back to the validator as a raw record. *)
Definition raw_of_page (p : Page) : pyval :=
  PDict [ ("page_no", PStr (page_no p));
          ("page_type", PStr (page_type_text (page_type p)));
          ("bill_items", PList (map raw_of_item (bill_items p))) ].

(** The value [d.get(key, default)] of a dict. *)
Definition field (d : list (string * pyval)) (key : string) (default : pyval)
    : pyval :=
  match dict_lookup key d with
  | Some x => x
  | None => default
  end.

(** The exceptions [validate_and_deduplicate] lets through. *)
Definition escapes (e : exn) : bool :=
  match e with
  | AttributeError | TypeError | OverflowError => true
  | ValueError => false
  end.

(** A raw page and the validated page made of it: same number, as text,
    and the normalized type. *)
Definition page_of_raw (raw : pyval) (p : Page) : Prop :=
  exists d,
    raw = PDict d /\
    page_no p = py_str (field d "page_no" (PStr "1")) /\
    _normalize_page_type (field d "page_type" (PStr "Bill Detail"))
      = Ok (page_type p).

(** A prepared item: a dict with a name and three numbers that are floats. *)
Definition prepared_item (item : pyval) : Prop :=
  exists d name a r q,
    item = PDict d /\
    dict_lookup "item_name" d = Some name /\
    dict_lookup "item_amount" d = Some (PFloat a) /\
    dict_lookup "item_rate" d = Some (PFloat r) /\
    dict_lookup "item_quantity" d = Some (PFloat q).

(** A reply of the model around a JSON object: the text [q1], the object
    [{m}], the text [q2]. *)
Definition around (q1 m q2 : string) : string :=
  q1 ++ String "{" (m ++ String "}" q2).

(** [c] is an object [{m}] between a text with no opening brace and a
    text with no closing brace. *)
Definition holds_object (m c : string) : Prop :=
  exists q1 q2,
    c = around q1 m q2 /\
    has_char "{" q1 = false /\
    has_char "}" q2 = false.

(** A text between double quotes. *)
Definition quoted (s : string) : string :=
  String (PyConv.chr 34) (s ++ String (PyConv.chr 34) EmptyString).

Definition newline : string := String (PyConv.chr 10) EmptyString.

(** The item list of a page record the extractor returns: what a loop over
    its [bill_items] visits. *)
Definition extracted_items (page : pyval) (items : list pyval) : Prop :=
  exists d v,
    page = PDict d /\
    dict_lookup "bill_items" d = Some v /\
    py_iter v = Ok items.

(** The name of a prepared or raw item is too short or is a total line:
    the two reasons the validator has to leave out an item whose numbers
    are floats. *)
Definition name_rejected (item : pyval) : bool :=
  match item with
  | PDict d =>
      let name := strip (py_str (name_value_of d)) in
      String.eqb name "" || (String.length name <? 2)%nat
      || _is_total_or_subtotal name
  | _ => false
  end.

(** A dict with a name and three numbers that are floats. *)
Definition prepared_dict (d : list (string * pyval)) : Prop :=
  exists name a r q,
    dict_lookup "item_name" d = Some name /\
    dict_lookup "item_amount" d = Some (PFloat a) /\
    dict_lookup "item_rate" d = Some (PFloat r) /\
    dict_lookup "item_quantity" d = Some (PFloat q).

(** The items the item validator accepts among [items], in their order. *)
Definition accepted (items : list pyval) : list LineItem :=
  flat_map (fun raw => match _validate_item raw with
                       | Ok (Some li) => [ li ]
                       | _ => []
                       end) items.

(** The number of raw items of a raw page, and of a list of raw pages. *)
Definition raw_items_of (page : pyval) : nat :=
  match page with
  | PDict d =>
      match py_iter (field d "bill_items" (PList [])) with
      | Ok items => List.length items
      | Raise _ => 0
      end
  | _ => 0
  end.

Definition raw_item_count (pages : list pyval) : nat :=
  list_sum (map raw_items_of pages).

End Props.

(* ================================================================== *)
(** ** Facts about strings *)

Section StringFacts.

Import PyStr.

Lemma is_space_lower_char (c : ascii) : is_space (lower_char c) = is_space c.
Proof. destruct c as [[] [] [] [] [] [] [] []]; reflexivity. Qed.

Lemma lstrip_lower (s : string) : lstrip (lower s) = lower (lstrip s).
Proof.
  induction s as [|c s IH]; simpl; [reflexivity|].
  rewrite is_space_lower_char. destruct (is_space c); [exact IH | reflexivity].
Qed.

Lemma rstrip_lower (s : string) : rstrip (lower s) = lower (rstrip s).
Proof.
  induction s as [|c s IH]; simpl; [reflexivity|].
  rewrite IH. destruct (rstrip s) as [|c' r]; simpl.
  - rewrite is_space_lower_char. destruct (is_space c); reflexivity.
  - reflexivity.
Qed.

Lemma strip_lower (s : string) : strip (lower s) = lower (strip s).
Proof. unfold strip. now rewrite lstrip_lower, rstrip_lower. Qed.

Lemma rstrip_idem (s : string) : rstrip (rstrip s) = rstrip s.
Proof.
  induction s as [|c s IH]; simpl; [reflexivity|].
  destruct (rstrip s) as [|c' r] eqn:E.
  - destruct (is_space c) eqn:Hc; simpl; [reflexivity|]. now rewrite Hc.
  - change (rstrip (String c (String c' r)))
      with (match rstrip (String c' r) with
            | EmptyString => if is_space c then EmptyString else String c EmptyString
            | r' => String c r'
            end).
    now rewrite IH.
Qed.

(** A string whose first character is not white space keeps it under
    [rstrip]. *)
Lemma rstrip_head (c : ascii) (s : string) :
  is_space c = false -> exists r, rstrip (String c s) = String c r.
Proof.
  intro Hc. simpl. destruct (rstrip s) as [|c' r].
  - rewrite Hc. now exists EmptyString.
  - now exists (String c' r).
Qed.

Lemma lstrip_head (s : string) :
  lstrip s = EmptyString \/
  exists c r, lstrip s = String c r /\ is_space c = false.
Proof.
  induction s as [|c s IH]; simpl; [now left|].
  destruct (is_space c) eqn:Hc; [exact IH|].
  right. now exists c, s.
Qed.

Lemma lstrip_strip (s : string) : lstrip (strip s) = strip s.
Proof.
  unfold strip. destruct (lstrip_head s) as [E | (c & r & E & Hc)]; rewrite E.
  - reflexivity.
  - destruct (rstrip_head c r Hc) as [r' E']. rewrite E'. simpl. now rewrite Hc.
Qed.

Lemma strip_idem (s : string) : strip (strip s) = strip s.
Proof.
  unfold strip at 1. rewrite lstrip_strip. unfold strip. apply rstrip_idem.
Qed.

(** On a trimmed name, lowering the case leaves nothing to trim. *)
Lemma strip_lower_trimmed (s : string) : strip s = s -> strip (lower s) = lower s.
Proof. intro H. now rewrite strip_lower, H. Qed.

Lemma lower_length (s : string) : String.length (lower s) = String.length s.
Proof. induction s as [|c s IH]; simpl; congruence. Qed.

End StringFacts.

(* ================================================================== *)
(** ** The total/subtotal classifier *)

Section Classifier.

Import PyFloat PyStr Py ValidationEngine Spec.
Local Open Scope string_scope.

Lemma str_in_In (x : string) (l : list string) : str_in x l = true <-> In x l.
Proof.
  induction l as [|y l IH]; simpl.
  - split; [discriminate | tauto].
  - rewrite orb_true_iff, IH, String.eqb_eq. split; intros [H|H]; auto.
Qed.

(** The keyword loop answers [true] exactly when one keyword of the list
    passes the three tests. *)
Lemma total_keyword_loop_spec (item_lower : string) (keywords : list string) :
  total_keyword_loop item_lower keywords = true <->
  exists keyword,
    In keyword keywords /\
    contains keyword item_lower = true /\
    String.length item_lower < 30 /\
    In (strip (replace keyword "" item_lower)) [ ""; "-"; ":"; "=" ].
Proof.
  induction keywords as [|k ks IH]; cbn [total_keyword_loop].
  - split; [discriminate | intros (kw & [] & _)].
  - destruct (contains k item_lower) eqn:Hc; cbn [andb].
    + destruct (String.length item_lower <? 30)%nat eqn:Hl.
      * destruct (str_in (strip (replace k "" item_lower)) [ ""; "-"; ":"; "=" ]) eqn:Hr.
        -- split; [intros _ | reflexivity].
           exists k. apply Nat.ltb_lt in Hl. apply str_in_In in Hr.
           repeat split; [now left | assumption..].
        -- rewrite IH. split; intros (kw & Hin & H1 & H2 & H3).
           ++ exists kw. repeat split; [now right | assumption..].
           ++ destruct Hin as [<- | Hin]; [| exists kw; tauto].
              apply str_in_In in H3. congruence.
      * rewrite IH. apply Nat.ltb_ge in Hl.
        split; intros (kw & Hin & H1 & H2 & H3); [| lia].
        exists kw. repeat split; [now right | assumption..].
    + rewrite IH. split; intros (kw & Hin & H1 & H2 & H3).
      * exists kw. repeat split; [now right | assumption..].
      * destruct Hin as [<- | Hin]; [congruence | exists kw; tauto].
Qed.

(** C4. A trimmed item name is flagged as a total line exactly when some
    keyword of the fixed list occurs in the lower-cased name, the lower-cased
    name has fewer than 30 characters, and the name with the keyword removed
    is, once trimmed, the empty string, "-", ":" or "=".  The item validator
    rejects the names "Total:", "Grand Total" and "Sub-Total =" whatever the
    numeric fields are, and accepts "Total Antibiotics", "Total Knee
    Replacement" and "Antibiotics Total Course". *)
Theorem total_filter_precision (name : string) :
  strip name = name ->
  (_is_total_or_subtotal name = true <->
   exists keyword,
     In keyword total_keywords /\
     contains keyword (lower name) = true /\
     String.length (lower name) < 30 /\
     In (strip (replace keyword "" (lower name))) [ ""; "-"; ":"; "=" ])
  /\ (forall amount rate quantity : pyval,
        _validate_item (raw_item (PStr "Total:") amount rate quantity) = Ok None /\
        _validate_item (raw_item (PStr "Grand Total") amount rate quantity) = Ok None /\
        _validate_item (raw_item (PStr "Sub-Total =") amount rate quantity) = Ok None)
  /\ (forall amount rate quantity : float,
        let accepted n :=
          Ok (Some {| item_name := n; item_amount := amount;
                      item_rate := rate; item_quantity := quantity |}) in
        let raw n := raw_item (PStr n) (PFloat amount) (PFloat rate) (PFloat quantity) in
        _validate_item (raw "Total Antibiotics") = accepted "Total Antibiotics" /\
        _validate_item (raw "Total Knee Replacement") = accepted "Total Knee Replacement" /\
        _validate_item (raw "Antibiotics Total Course") = accepted "Antibiotics Total Course").
Proof.
  intro Htrim. split; [| split].
  - unfold _is_total_or_subtotal.
    rewrite (strip_lower_trimmed name Htrim).
    apply total_keyword_loop_spec.
  - intros amount rate quantity. repeat apply conj; vm_compute; reflexivity.
  - intros amount rate quantity. repeat apply conj; vm_compute; reflexivity.
Qed.

(** The property at the name "Sub-Total =": it is flagged, through the
    keyword "sub-total", which leaves "=" once trimmed. *)
Lemma total_filter_precision_witness :
  (_is_total_or_subtotal "Sub-Total =" = true <->
   exists keyword,
     In keyword total_keywords /\
     contains keyword (lower "Sub-Total =") = true /\
     String.length (lower "Sub-Total =") < 30 /\
     In (strip (replace keyword "" (lower "Sub-Total ="))) [ ""; "-"; ":"; "=" ])
  /\ _is_total_or_subtotal "Sub-Total =" = true.
Proof.
  split.
  - exact (proj1 (total_filter_precision "Sub-Total =" eq_refl)).
  - reflexivity.
Defined.

End Classifier.

(* ================================================================== *)
(** ** The similarity scorer *)

Section Scorer.

Import PyFloat PyStr Py ValidationEngine Spec.
Local Open Scope string_scope.

Arguments _are_items_duplicate : simpl never.

Lemma is_duplicate_existsb (item : LineItem) (seen_items : list SeenItem) :
  is_duplicate item seen_items =
  existsb (fun seen => _are_items_duplicate item (seen_item seen)) seen_items.
Proof.
  induction seen_items as [|s l IH]; simpl; [reflexivity|].
  rewrite IH. now destruct (_are_items_duplicate item (seen_item s)).
Qed.

(** Two items on one page, the second a duplicate of the first: the page
    keeps the first only. *)
Lemma dedup_pair_same_page (no : string) (type : PageType) (item1 item2 : LineItem) :
  _are_items_duplicate item2 item1 = true ->
  _deduplicate_items
    [ {| page_no := no; page_type := type; bill_items := [item1; item2] |} ] =
    [ {| page_no := no; page_type := type; bill_items := [item1] |} ].
Proof.
  intro H. unfold _deduplicate_items. simpl. now rewrite H.
Qed.

Lemma dedup_pair_same_page_distinct
    (no : string) (type : PageType) (item1 item2 : LineItem) :
  _are_items_duplicate item2 item1 = false ->
  _deduplicate_items
    [ {| page_no := no; page_type := type; bill_items := [item1; item2] |} ] =
    [ {| page_no := no; page_type := type; bill_items := [item1; item2] |} ].
Proof.
  intro H. unfold _deduplicate_items. simpl. now rewrite H.
Qed.

(** The same on two pages: the second page stays, with no item. *)
Lemma dedup_pair_two_pages (p1 p2 : Page) (item1 item2 : LineItem) :
  _are_items_duplicate item2 item1 = true ->
  _deduplicate_items [ with_items p1 [item1]; with_items p2 [item2] ] =
    [ with_items p1 [item1]; with_items p2 [] ].
Proof.
  intro H. unfold _deduplicate_items. simpl. now rewrite H.
Qed.

(** Two items neither of which matches the other are both kept. *)
Lemma dedup_pair_distinct (p1 p2 : Page) (item1 item2 : LineItem) :
  _are_items_duplicate item2 item1 = false ->
  _deduplicate_items [ with_items p1 [item1]; with_items p2 [item2] ] =
    [ with_items p1 [item1]; with_items p2 [item2] ].
Proof.
  intro H. unfold _deduplicate_items. simpl. now rewrite H.
Qed.

(** C6. Items whose lower-cased, trimmed names are equal are duplicates of
    each other, whatever their amounts, rates and quantities are; in a scan
    the later one is removed, on the same page or on a later page (which is
    kept, empty). *)
Theorem exact_name_short_circuit (item1 item2 : LineItem) :
  strip (lower (item_name item1)) = strip (lower (item_name item2)) ->
  _are_items_duplicate item1 item2 = true /\
  _are_items_duplicate item2 item1 = true /\
  (forall no type,
     _deduplicate_items
       [ {| page_no := no; page_type := type; bill_items := [item1; item2] |} ] =
       [ {| page_no := no; page_type := type; bill_items := [item1] |} ]) /\
  (forall p1 p2,
     _deduplicate_items [ with_items p1 [item1]; with_items p2 [item2] ] =
       [ with_items p1 [item1]; with_items p2 [] ]).
Proof.
  intro H.
  assert (H12 : _are_items_duplicate item1 item2 = true).
  { unfold _are_items_duplicate. rewrite H. now rewrite String.eqb_refl. }
  assert (H21 : _are_items_duplicate item2 item1 = true).
  { unfold _are_items_duplicate. rewrite H. now rewrite String.eqb_refl. }
  repeat apply conj; try assumption.
  - intros no type. now apply dedup_pair_same_page.
  - intros p1 p2. now apply dedup_pair_two_pages.
Qed.

(** Two items named "Paracetamol" with amounts 100.0 and 500.0. *)
Lemma exact_name_short_circuit_witness :
  let first := line_item "Paracetamol" (lit 100 1) in
  let second := line_item "Paracetamol" (lit 500 1) in
  _are_items_duplicate first second = true /\
  _are_items_duplicate second first = true /\
  (forall no type,
     _deduplicate_items
       [ {| page_no := no; page_type := type; bill_items := [first; second] |} ] =
       [ {| page_no := no; page_type := type; bill_items := [first] |} ]) /\
  (forall p1 p2,
     _deduplicate_items [ with_items p1 [first]; with_items p2 [second] ] =
       [ with_items p1 [first]; with_items p2 [] ]).
Proof.
  exact (exact_name_short_circuit
           (line_item "Paracetamol" (lit 100 1))
           (line_item "Paracetamol" (lit 500 1)) eq_refl).
Defined.

Lemma paracetamol_pair_verdicts :
  _are_items_duplicate paracetamol_tab paracetamol_tablet = false /\
  _are_items_duplicate paracetamol_tablet paracetamol_tab = false.
Proof. split; vm_compute; reflexivity. Qed.

(** C5, as stated, fails: the scorer does not judge "Paracetamol Tab"
    (100.0) and "Paracetamol Tablet" (100.5) duplicates, in either order. *)
Lemma paracetamol_tab_tablet_not_duplicates :
  _are_items_duplicate paracetamol_tab paracetamol_tablet = false /\
  _are_items_duplicate paracetamol_tablet paracetamol_tab = false.
Proof. split; vm_compute; reflexivity. Qed.

(** C5, amended. The names "Paracetamol Tab" and "Paracetamol Tablet" share
    one word of three, so their similarity is 1/3, which is not above the
    threshold 0.8; their amounts 100.0 and 100.5 do pass the closeness test,
    but the test is not reached: the scorer judges the two items not to be
    duplicates, and the deduplicator keeps both. *)
Theorem paracetamol_tab_tablet_kept_apart :
  word_set "paracetamol tab" = [ "tab"; "paracetamol" ] /\
  word_set "paracetamol tablet" = [ "tablet"; "paracetamol" ] /\
  _calculate_name_similarity "paracetamol tab" "paracetamol tablet" = lit 1 3 /\
  gtb (lit 1 3) similarity_threshold = false /\
  amounts_close (lit 100 1) (lit 1005 10) = true /\
  amounts_close (lit 1005 10) (lit 100 1) = true /\
  _are_items_duplicate paracetamol_tab paracetamol_tablet = false /\
  _are_items_duplicate paracetamol_tablet paracetamol_tab = false /\
  (forall p1 p2 : Page,
     _deduplicate_items
       [ with_items p1 [paracetamol_tab]; with_items p2 [paracetamol_tablet] ] =
       [ with_items p1 [paracetamol_tab]; with_items p2 [paracetamol_tablet] ]).
Proof.
  repeat apply conj;
    try (intros p1 p2; apply dedup_pair_distinct; exact (proj2 paracetamol_pair_verdicts));
    vm_compute; reflexivity.
Qed.


(** C8. For two items whose lower-cased, trimmed names differ and whose name
    similarity is above the threshold, the verdict is the amount closeness
    test: the difference is below 0.01, or the difference divided by
    [max(|a1|, 0.01)] is below 0.05, where [a1] is the amount of the first
    argument.  The scan passes the item under examination as the first
    argument and the seen item as the second.  The test is not symmetric:
    there are items [x], [y] with [x] a duplicate of [y] and [y] not one of
    [x], so that of the two orders of scanning them one keeps both and the
    other removes one. *)
Theorem amount_closeness_uses_first_amount (item1 item2 : LineItem) :
  strip (lower (item_name item1)) <> strip (lower (item_name item2)) ->
  gtb (_calculate_name_similarity
         (strip (lower (item_name item1))) (strip (lower (item_name item2))))
      similarity_threshold = true ->
  let a1 := item_amount item1 in
  let a2 := item_amount item2 in
  _are_items_duplicate item1 item2 =
    (ltb (abs (sub a1 a2)) (lit 1 100)
     || ltb (div (abs (sub a1 a2)) (max (abs a1) (lit 1 100))) (lit 5 100))
  /\ (forall item seen_items,
        is_duplicate item seen_items =
        existsb (fun seen => _are_items_duplicate item (seen_item seen)) seen_items)
  /\ (exists x y,
        _are_items_duplicate x y = true /\
        _are_items_duplicate y x = false /\
        (forall p,
           _deduplicate_items [ with_items p [x; y] ] = [ with_items p [x; y] ] /\
           _deduplicate_items [ with_items p [y; x] ] = [ with_items p [y] ])).
Proof.
  intros Hne Hsim a1 a2. split; [| split].
  - unfold _are_items_duplicate.
    destruct (String.eqb_spec (strip (lower (item_name item1)))
                (strip (lower (item_name item2)))) as [E|_]; [contradiction|].
    rewrite Hsim. fold a1 a2.
    now destruct (ltb (abs (sub a1 a2)) (lit 1 100)
                  || ltb (div (abs (sub a1 a2)) (max (abs a1) (lit 1 100))) (lit 5 100)).
  - apply is_duplicate_existsb.
  - exists strip_of_ten, strip_of_ten_10s.
    assert (Hxy : _are_items_duplicate strip_of_ten strip_of_ten_10s = true)
      by (vm_compute; reflexivity).
    assert (Hyx : _are_items_duplicate strip_of_ten_10s strip_of_ten = false)
      by (vm_compute; reflexivity).
    repeat apply conj; try assumption.
    intro p. split.
    + now apply (dedup_pair_same_page_distinct (page_no p) (page_type p)).
    + now apply (dedup_pair_same_page (page_no p) (page_type p)).
Qed.

(** The property at the pair above: with 100.0 first, the difference 4.9 is
    below 5% of 100.0. *)
Lemma amount_closeness_uses_first_amount_witness :
  _are_items_duplicate strip_of_ten strip_of_ten_10s =
    (ltb (abs (sub (lit 100 1) (lit 951 10))) (lit 1 100)
     || ltb (div (abs (sub (lit 100 1) (lit 951 10)))
                 (max (abs (lit 100 1)) (lit 1 100))) (lit 5 100)).
Proof.
  refine (proj1 (amount_closeness_uses_first_amount strip_of_ten strip_of_ten_10s _ _)).
  - vm_compute. discriminate.
  - vm_compute. reflexivity.
Defined.

End Scorer.

(* ================================================================== *)
(** ** The item validator *)

Section ItemValidator.

Import PyFloat PyStr Py ValidationEngine Spec.
Local Open Scope string_scope.

(** What an accepted item tells about the raw record it comes from. *)
Lemma validate_item_accepts (raw : pyval) (li : LineItem) :
  _validate_item raw = Ok (Some li) ->
  exists d,
    raw = PDict d /\
    item_name li = strip (py_str (name_value_of d)) /\
    item_name li <> "" /\
    2 <= String.length (item_name li) /\
    _is_total_or_subtotal (item_name li) = false /\
    numeric_fields raw = Ok (item_amount li, item_rate li, item_quantity li).
Proof.
  destruct raw as [| | | | |l|d]; try discriminate.
  unfold _validate_item. cbn [py_get bind]. fold (name_value_of d).
  set (name := strip (py_str (name_value_of d))).
  destruct (String.eqb_spec name "") as [E|Hne]; cbn [orb]; [discriminate|].
  destruct (String.length name <? 2)%nat eqn:Hlen; [discriminate|].
  destruct (_is_total_or_subtotal name) eqn:Htot; [discriminate|].
  destruct (numeric_fields (PDict d)) as [[[a r] q]|e] eqn:Hnum;
    cbn [bind try_except].
  - intro H. injection H as <-.
    cbn [item_name item_amount item_rate item_quantity].
    exists d. apply Nat.ltb_ge in Hlen. repeat apply conj; auto.
  - destruct (value_or_type_error e); cbn [bind]; discriminate.
Qed.

(** The converse: a dict that passes the three checks is accepted. *)
Lemma validate_item_accepted (d : list (string * pyval)) (a r q : float) :
  let name := strip (py_str (name_value_of d)) in
  name <> "" ->
  2 <= String.length name ->
  _is_total_or_subtotal name = false ->
  numeric_fields (PDict d) = Ok (a, r, q) ->
  _validate_item (PDict d) =
    Ok (Some {| item_name := name; item_amount := a;
                item_rate := r; item_quantity := q |}).
Proof.
  intros name Hne Hlen Htot Hnum.
  unfold _validate_item. cbn [py_get bind]. fold (name_value_of d). fold name.
  destruct (String.eqb_spec name "") as [E|_]; [contradiction|]. cbn [orb].
  apply Nat.ltb_ge in Hlen. rewrite Hlen, Htot, Hnum. reflexivity.
Qed.

(** C9. An item the validator returned, handed to the validator again as a
    raw record, is accepted and comes back with the same name and the same
    three numbers. *)
Theorem validation_idempotent (raw : pyval) (li : LineItem) :
  _validate_item raw = Ok (Some li) ->
  _validate_item (raw_of_item li) = Ok (Some li).
Proof.
  intro H. destruct (validate_item_accepts raw li H)
    as (d & _ & Hname & Hne & Hlen & Htot & _).
  assert (Htrim : strip (item_name li) = item_name li)
    by (rewrite Hname; apply strip_idem).
  unfold raw_of_item.
  rewrite (validate_item_accepted _ (item_amount li) (item_rate li) (item_quantity li));
    cbn [name_value_of dict_lookup String.eqb Ascii.eqb Bool.eqb py_str];
    rewrite ?Htrim; auto.
  now destruct li.
Qed.

(** A raw record with a padded name and numbers written as text, and the
    item the validator makes of it. *)
Lemma validation_idempotent_witness :
  let li := {| item_name := "Paracetamol 500mg";
               item_amount := lit 1205 10;
               item_rate := lit 241 10;
               item_quantity := lit 5 1 |} in
  _validate_item
    (raw_item (PStr "  Paracetamol 500mg ") (PStr "120.5") (PStr "24.1") (PInt 5))
    = Ok (Some li) /\
  _validate_item (raw_of_item li) = Ok (Some li).
Proof.
  split.
  - vm_compute. reflexivity.
  - apply (validation_idempotent
             (raw_item (PStr "  Paracetamol 500mg ") (PStr "120.5") (PStr "24.1") (PInt 5))).
    vm_compute. reflexivity.
Defined.

(** C10. A raw item whose [item_name] is present and null is not rejected
    for its name: the null reads as the text "None", and when the three
    numeric fields coerce the item is returned with that name.  An item with
    no [item_name], or with one whose text trims to fewer than 2 characters,
    is rejected; and an item whose numeric fields coerce and whose name is
    not a total line is rejected only in that case. *)
Theorem null_item_name_is_kept (d : list (string * pyval)) :
  (dict_lookup "item_name" d = Some PNone ->
   strip (py_str PNone) = "None" /\
   name_too_short PNone = false /\
   _is_total_or_subtotal "None" = false /\
   forall a r q,
     numeric_fields (PDict d) = Ok (a, r, q) ->
     _validate_item (PDict d) =
       Ok (Some {| item_name := "None"; item_amount := a;
                   item_rate := r; item_quantity := q |}))
  /\ (dict_lookup "item_name" d = None -> _validate_item (PDict d) = Ok None)
  /\ (forall v, dict_lookup "item_name" d = Some v ->
        name_too_short v = true -> _validate_item (PDict d) = Ok None)
  /\ (forall a r q,
        numeric_fields (PDict d) = Ok (a, r, q) ->
        _is_total_or_subtotal (strip (py_str (name_value_of d))) = false ->
        (_validate_item (PDict d) = Ok None <->
         name_too_short (name_value_of d) = true))
  /\ _validate_item (PDict [ ("item_name", PNone) ]) =
       Ok (Some {| item_name := "None"; item_amount := zero;
                   item_rate := zero; item_quantity := zero |})
  /\ _validate_item (PDict [ ("item_amount", PFloat (lit 10 1)) ]) = Ok None
  /\ _validate_item (PDict [ ("item_name", PStr " x ") ]) = Ok None.
Proof.
  split; [| split; [| split; [| split; [| repeat apply conj; vm_compute; reflexivity]]]].
  - intro Hnull.
    split; [reflexivity | split; [reflexivity | split; [vm_compute; reflexivity |]]].
    intros a r q Hnum.
    assert (Hname : strip (py_str (name_value_of d)) = "None")
      by (unfold name_value_of; now rewrite Hnull).
    generalize (validate_item_accepted d a r q). cbv zeta. rewrite Hname.
    intro Hacc. apply Hacc.
    + discriminate.
    + cbn. lia.
    + vm_compute; reflexivity.
    + exact Hnum.
  - intro Habs. unfold _validate_item. cbn [py_get bind]. now rewrite Habs.
  - intros v Hv Hshort. unfold _validate_item. cbn [py_get bind]. rewrite Hv.
    unfold name_too_short in Hshort. rewrite Hshort. now rewrite orb_true_r.
  - intros a r q Hnum Htot. unfold name_too_short.
    destruct (String.length (strip (py_str (name_value_of d))) <? 2)%nat eqn:Hlen.
    + split; [reflexivity | intros _].
      unfold _validate_item. cbn [py_get bind]. fold (name_value_of d).
      rewrite Hlen. now rewrite orb_true_r.
    + split; [| discriminate]. intro Hrej. apply Nat.ltb_ge in Hlen.
      rewrite (validate_item_accepted d a r q) in Hrej; try assumption;
        [discriminate|].
      intro E. rewrite E in Hlen. cbn in Hlen. lia.
Qed.

End ItemValidator.

(* ================================================================== *)
(** ** The cross-page deduplicator *)

Section Deduplicator.

Import PyFloat PyStr Py ValidationEngine Spec.
Local Open Scope string_scope.
Local Open Scope list_scope.

Arguments _are_items_duplicate : simpl never.

Lemma is_duplicate_items (item : LineItem) (seen_items : list SeenItem) :
  is_duplicate item seen_items =
  existsb (_are_items_duplicate item) (map seen_item seen_items).
Proof.
  induction seen_items as [|s l IH]; simpl; [reflexivity|].
  rewrite IH. now destruct (_are_items_duplicate item (seen_item s)).
Qed.

Lemma flags_from_length (items seen : list LineItem) :
  List.length (flags_from seen items) = List.length items.
Proof.
  revert seen. induction items as [|x r IH]; intro seen; simpl; [reflexivity|].
  destruct (existsb (_are_items_duplicate x) seen); simpl; now rewrite IH.
Qed.

(** The item loop keeps the flagged items, and remembers them. *)
Lemma dedup_items_loop_flags (no : string) (items : list LineItem) :
  forall (seen_items : list SeenItem) (kept : list LineItem),
    let picked := select (flags_from (map seen_item seen_items) items) items in
    dedup_items_loop no items seen_items kept =
      (seen_items ++ map (tag no) picked, kept ++ picked).
Proof.
  induction items as [|x r IH]; intros seen kept; simpl.
  - now rewrite !app_nil_r.
  - rewrite is_duplicate_items.
    destruct (existsb (_are_items_duplicate x) (map seen_item seen)) eqn:E.
    + apply IH.
    + rewrite IH. rewrite map_app. simpl.
      now rewrite <- !app_assoc.
Qed.

Lemma map_seen_item_tag (no : string) (l : list LineItem) :
  map seen_item (map (tag no) l) = l.
Proof. induction l as [|x r IH]; simpl; congruence. Qed.

(** The page loop gives each page back with its flagged items. *)
Lemma dedup_pages_loop_masks (pages : list Page) :
  forall (seen_items : list SeenItem) (out : list Page),
    dedup_pages_loop pages seen_items out =
      out ++ map masked (combine (masks_from (map seen_item seen_items) pages) pages).
Proof.
  induction pages as [|p r IH]; intros seen out; simpl.
  - now rewrite app_nil_r.
  - rewrite dedup_items_loop_flags. cbv zeta. rewrite IH.
    rewrite map_app, map_seen_item_tag. rewrite <- app_assoc. reflexivity.
Qed.

Lemma masks_from_lengths (pages : list Page) :
  forall seen,
    Forall2 (fun mask page => List.length mask = List.length (bill_items page))
            (masks_from seen pages) pages.
Proof.
  induction pages as [|p r IH]; intro seen; simpl; constructor.
  - apply flags_from_length.
  - apply IH.
Qed.

Lemma masks_from_length (pages : list Page) :
  forall seen, List.length (masks_from seen pages) = List.length pages.
Proof.
  induction pages as [|p r IH]; intro seen; simpl; [reflexivity|].
  now rewrite IH.
Qed.

Lemma flags_from_app (l1 l2 : list LineItem) :
  forall seen,
    flags_from seen (l1 ++ l2) =
      flags_from seen l1 ++ flags_from (seen ++ select (flags_from seen l1) l1) l2.
Proof.
  induction l1 as [|x r IH]; intro seen; simpl.
  - now rewrite app_nil_r.
  - destruct (existsb (_are_items_duplicate x) seen); simpl.
    + now rewrite IH.
    + rewrite IH. now rewrite <- app_assoc.
Qed.

(** The masks of the pages, end to end, are the flags of one scan of all
    items. *)
Lemma masks_from_concat (pages : list Page) :
  forall seen,
    List.concat (masks_from seen pages) = flags_from seen (all_items pages).
Proof.
  unfold all_items.
  induction pages as [|p r IH]; intro seen; simpl; [reflexivity|].
  now rewrite IH, flags_from_app.
Qed.

(** An item is flagged exactly when no item kept before it matches it:
    none of [seen], and none of the flagged items that precede it. *)
Lemma flags_from_spec (items : list LineItem) :
  forall (seen : list LineItem) (i : nat) (item : LineItem),
    nth_error items i = Some item ->
    (nth i (flags_from seen items) false = true <->
     existsb (_are_items_duplicate item) seen = false /\
     forall j earlier,
       j < i ->
       nth j (flags_from seen items) false = true ->
       nth_error items j = Some earlier ->
       _are_items_duplicate item earlier = false).
Proof.
  induction items as [|x r IH]; intros seen i item Hi.
  - destruct i; discriminate.
  - destruct i as [|i]; simpl in Hi.
    + injection Hi as ->. simpl.
      destruct (existsb (_are_items_duplicate item) seen) eqn:E; simpl.
      * split; [discriminate | intros [H _]; discriminate].
      * split; [| reflexivity]. intros _. split; [reflexivity|]. intros j e Hj. lia.
    + simpl. destruct (existsb (_are_items_duplicate x) seen) eqn:E; simpl.
      * rewrite (IH seen i item Hi). split; intros [Hs Hall]; split; auto.
        -- intros [|j] e Hj Hf He; simpl in *; [discriminate|].
           apply (Hall j e); auto. lia.
        -- intros j e Hj Hf He. apply (Hall (S j) e); auto. lia.
      * rewrite (IH (seen ++ [x]) i item Hi). rewrite existsb_app. simpl.
        rewrite orb_false_r, orb_false_iff.
        split.
        -- intros [[Hs Hx] Hall]. split; [exact Hs|].
           intros [|j] e Hj Hf He; simpl in *.
           ++ now injection He as <-.
           ++ apply (Hall j e); auto. lia.
        -- intros [Hs Hall]. split; [split; [exact Hs|] |].
           ++ apply (Hall 0 x); auto. lia.
           ++ intros j e Hj Hf He. apply (Hall (S j) e); auto. lia.
Qed.

(** An item that is not flagged matches an item kept before it. *)
Lemma flags_from_removed (items : list LineItem) :
  forall (seen : list LineItem) (i : nat) (item : LineItem),
    nth_error items i = Some item ->
    nth i (flags_from seen items) false = false ->
    existsb (_are_items_duplicate item) seen = true \/
    exists j earlier,
      j < i /\
      nth j (flags_from seen items) false = true /\
      nth_error items j = Some earlier /\
      _are_items_duplicate item earlier = true.
Proof.
  induction items as [|x r IH]; intros seen i item Hi Hf.
  - destruct i; discriminate.
  - destruct i as [|i]; simpl in Hi.
    + injection Hi as ->. simpl in Hf.
      destruct (existsb (_are_items_duplicate item) seen); [now left | discriminate].
    + simpl in Hf. simpl.
      destruct (existsb (_are_items_duplicate x) seen) eqn:E; simpl in *.
      * destruct (IH seen i item Hi Hf) as [H | (j & e & Hj & Hfj & He & Hd)];
          [now left | right].
        exists (S j), e. repeat apply conj; auto. lia.
      * destruct (IH (seen ++ [x]) i item Hi Hf) as [H | (j & e & Hj & Hfj & He & Hd)].
        -- rewrite existsb_app in H. simpl in H. rewrite orb_false_r in H.
           apply orb_true_iff in H. destruct H as [H|H]; [now left | right].
           exists 0, x. repeat apply conj; auto. lia.
        -- right. exists (S j), e. repeat apply conj; auto. lia.
Qed.

Lemma map_masked_page_no (masks : list (list bool)) (pages : list Page) :
  List.length masks = List.length pages ->
  map page_no (map masked (combine masks pages)) = map page_no pages /\
  map page_type (map masked (combine masks pages)) = map page_type pages.
Proof.
  revert masks. induction pages as [|p r IH]; intros [|m ms] H; try discriminate.
  - now split.
  - simpl in H. injection H as H. destruct (IH ms H) as [H1 H2].
    simpl. now rewrite H1, H2.
Qed.

(** C1. The deduplicator gives back the pages it was given, in the same
    order, each with its number and type and, as items, the items of the
    input page that the scan keeps, in their order; a page that keeps no item
    is given back empty.  Over the items of all pages in scan order, an item
    is kept if and only if no item kept before it matches it under the
    scorer (called with the item first).  Hence an item that matches no
    earlier item at all is kept, and an item that is removed matches an item
    kept before it: of a kept item and the later items that match it, the
    kept one, which is the first, survives and the later ones do not. *)
Theorem dedup_keeps_first_occurrences (pages : list Page) :
  exists masks : list (list bool),
    Forall2 (fun mask page => List.length mask = List.length (bill_items page))
            masks pages /\
    _deduplicate_items pages =
      map (fun mp => with_items (snd mp) (select (fst mp) (bill_items (snd mp))))
          (combine masks pages) /\
    List.length (_deduplicate_items pages) = List.length pages /\
    map page_no (_deduplicate_items pages) = map page_no pages /\
    map page_type (_deduplicate_items pages) = map page_type pages /\
    (forall i item,
       nth_error (all_items pages) i = Some item ->
       (nth i (List.concat masks) false = true <->
        forall j earlier,
          j < i ->
          nth j (List.concat masks) false = true ->
          nth_error (all_items pages) j = Some earlier ->
          _are_items_duplicate item earlier = false)) /\
    (forall i item,
       nth_error (all_items pages) i = Some item ->
       (forall j earlier,
          j < i ->
          nth_error (all_items pages) j = Some earlier ->
          _are_items_duplicate item earlier = false) ->
       nth i (List.concat masks) false = true) /\
    (forall i item,
       nth_error (all_items pages) i = Some item ->
       nth i (List.concat masks) false = false ->
       exists j earlier,
         j < i /\
         nth j (List.concat masks) false = true /\
         nth_error (all_items pages) j = Some earlier /\
         _are_items_duplicate item earlier = true).
Proof.
  exists (masks_from [] pages).
  assert (Hout : _deduplicate_items pages =
                 map masked (combine (masks_from [] pages) pages)).
  { unfold _deduplicate_items. now rewrite dedup_pages_loop_masks. }
  assert (Hlen : List.length (masks_from [] pages) = List.length pages).
  { apply masks_from_length. }
  destruct (map_masked_page_no _ _ Hlen) as [Hno Hty].
  repeat apply conj.
  - apply masks_from_lengths.
  - exact Hout.
  - rewrite Hout, length_map, length_combine, Hlen. apply Nat.min_id.
  - now rewrite Hout.
  - now rewrite Hout.
  - intros i item Hi. rewrite masks_from_concat.
    rewrite (flags_from_spec _ [] i item Hi). simpl. tauto.
  - intros i item Hi Hnone. rewrite masks_from_concat.
    apply (flags_from_spec _ [] i item Hi). split; [reflexivity|].
    intros j earlier Hj _ He. now apply (Hnone j earlier).
  - intros i item Hi Hf. rewrite masks_from_concat in *.
    destruct (flags_from_removed _ [] i item Hi Hf) as [H|H]; [discriminate | exact H].
Qed.

(** Three pages; the only item of the second repeats the first page's, in
    other letter case.  The second page is kept, empty. *)
Example dedup_three_pages :
  let p (no : string) (items : list LineItem) :=
    {| page_no := no; page_type := BillDetail; bill_items := items |} in
  _deduplicate_items
    [ p "1" [ line_item "Consultation" (lit 105 10) ];
      p "2" [ line_item "CONSULTATION" (lit 105 10) ];
      p "3" [ line_item "X-Ray Chest" (lit 20 1) ] ] =
    [ p "1" [ line_item "Consultation" (lit 105 10) ];
      p "2" [];
      p "3" [ line_item "X-Ray Chest" (lit 20 1) ] ].
Proof. vm_compute. reflexivity. Qed.

End Deduplicator.

(* ================================================================== *)
(** ** Facts about float coercion *)

Section FloatFacts.

Import PyFloat Py Spec.
Local Open Scope Z_scope.

Lemma shr_1_nonneg (mrs : shr_record) : 0 <= shr_m mrs -> 0 <= shr_m (shr_1 mrs).
Proof.
  destruct mrs as [m r s]. destruct m as [|[p|p|]|[p|p|]]; simpl; lia.
Qed.

Lemma iter_shr_1_nonneg (p : positive) :
  forall mrs, 0 <= shr_m mrs -> 0 <= shr_m (iter_pos shr_1 p mrs).
Proof.
  induction p as [p IH|p IH|]; intros mrs H; simpl.
  - apply IH, IH, shr_1_nonneg, H.
  - apply IH, IH, H.
  - apply shr_1_nonneg, H.
Qed.

Lemma shr_fexp_nonneg (m e : Z) (l : location) :
  0 <= m -> 0 <= shr_m (fst (shr_fexp prec emax m e l)).
Proof.
  intro H. unfold shr_fexp, shr.
  assert (H0 : 0 <= shr_m (shr_record_of_loc m l))
    by (destruct l as [|[]]; simpl; exact H).
  destruct (fexp prec emax (Zdigits2 m + e) - e) as [|p|p]; simpl; auto.
  now apply iter_shr_1_nonneg.
Qed.

Lemma round_nearest_even_nonneg (m : Z) (l : location) :
  0 <= m -> 0 <= round_nearest_even m l.
Proof.
  intro H. destruct l as [|[]]; simpl; try lia.
  destruct (Z.even m); lia.
Qed.

(** Rounding a mantissa that is not negative gives a number or an
    infinity. *)
Lemma binary_round_aux_not_nan (s : bool) (m e : Z) (l : location) :
  0 <= m -> binary_round_aux prec emax s m e l <> S754_nan.
Proof.
  intro H. unfold binary_round_aux.
  pose proof (shr_fexp_nonneg m e l H) as H1.
  destruct (shr_fexp prec emax m e l) as [mrs' e'] eqn:E1. simpl in H1.
  pose proof (shr_fexp_nonneg _ e' loc_Exact
                (round_nearest_even_nonneg _ (loc_of_shr_record mrs') H1)) as H2.
  destruct (shr_fexp prec emax
              (round_nearest_even (shr_m mrs') (loc_of_shr_record mrs')) e' loc_Exact)
    as [mrs'' e''] eqn:E2. simpl in H2.
  destruct (shr_m mrs'') as [|p|p]; try discriminate.
  - destruct (e'' <=? emax - prec); discriminate.
  - lia.
Qed.

Lemma of_Z_not_nan (z : Z) : of_Z z <> S754_nan.
Proof.
  unfold of_Z, binary_normalize, binary_round.
  destruct z as [|p|p]; [discriminate | |];
    destruct (shl_align p 0 (fexp prec emax (Z.pos (digits2_pos p) + 0))) as [mz ez];
    apply binary_round_aux_not_nan; lia.
Qed.

(** [float] of a boolean, an integer or a finite float is finite when it
    returns. *)
Lemma py_float_finite (v : pyval) (f : float) :
  py_float v = Ok f -> finite_source v = true -> is_finite f = true.
Proof.
  destruct v as [|b|z|g|s|l|d]; simpl; try discriminate.
  - intros H _. injection H as <-. now destruct b.
  - pose proof (of_Z_not_nan z) as Hn.
    destruct (of_Z z) eqn:E; intros H _; try discriminate;
      injection H as <-; try reflexivity. contradiction.
  - intros H Hg. now injection H as <-.
Qed.

(** The divisor of the relative closeness test is never zero, so the
    division of [_are_items_duplicate] raises no [ZeroDivisionError]. *)
Lemma max_abs_not_zero (a : float) : is_zero (max (abs a) (lit 1 100)) = false.
Proof.
  unfold max. destruct a as [s|s| |s m e]; cbn [abs SFabs].
  - vm_compute. reflexivity.
  - now destruct (gtb (lit 1 100) (S754_infinity false)).
  - now destruct (gtb (lit 1 100) S754_nan).
  - destruct (gtb (lit 1 100) (S754_finite false m e)); [vm_compute|]; reflexivity.
Qed.

End FloatFacts.

(* ================================================================== *)
(** ** Validation of pages, and the whole pipeline *)

Section Pipeline.

Import PyFloat PyStr Py ValidationEngine Main Spec.
Local Open Scope string_scope.
Local Open Scope list_scope.

(** The item loop only adds items that [_validate_item] returned. *)
Lemma validate_items_loop_sound (items : list pyval) :
  forall (validated out : list LineItem),
    validate_items_loop items validated = Ok out ->
    exists added,
      out = validated ++ added /\
      Forall (fun li => exists raw, In raw items /\ _validate_item raw = Ok (Some li))
             added.
Proof.
  induction items as [|x r IH]; intros validated out H; simpl in H.
  - injection H as <-. exists []. split; [now rewrite app_nil_r | constructor].
  - destruct (_validate_item x) as [[li|]|e] eqn:Hx; simpl in H; try discriminate.
    + destruct (IH _ _ H) as (added & -> & Hall).
      exists (li :: added). split; [now rewrite <- app_assoc|].
      constructor.
      * exists x. split; [now left | exact Hx].
      * eapply Forall_impl; [| exact Hall].
        intros a (raw & Hin & Hv). exists raw. split; [now right | exact Hv].
    + destruct (IH _ _ H) as (added & -> & Hall).
      exists added. split; [reflexivity|].
      eapply Forall_impl; [| exact Hall].
      intros a (raw & Hin & Hv). exists raw. split; [now right | exact Hv].
Qed.

Lemma validate_page_sound (page : pyval) (p : Page) :
  _validate_page page = Ok p ->
  forall li, In li (bill_items p) ->
    exists raw, raw_item_in page raw /\ _validate_item raw = Ok (Some li).
Proof.
  unfold _validate_page. intro H.
  destruct (py_get page "page_no" (PStr "1")) as [no|e]; [|discriminate].
  cbn [bind] in H.
  destruct (py_get page "page_type" (PStr "Bill Detail")) as [ty|e]; [|discriminate].
  cbn [bind] in H.
  destruct (_normalize_page_type ty) as [n|e]; [|discriminate].
  cbn [bind] in H.
  destruct (py_get page "bill_items" (PList [])) as [v|e] eqn:Hget; [|discriminate].
  cbn [bind] in H.
  destruct (py_iter v) as [items|e] eqn:Hiter; [|discriminate].
  cbn [bind] in H.
  destruct (validate_items_loop items []) as [validated|e] eqn:Hloop; [|discriminate].
  cbn [bind] in H. injection H as <-. cbn [bill_items].
  destruct (validate_items_loop_sound _ _ _ Hloop) as (added & -> & Hall).
  intros li Hin. cbn [app] in Hin.
  rewrite Forall_forall in Hall. destruct (Hall li Hin) as (raw & Hraw & Hv).
  exists raw. split; [| exact Hv].
  exists v, items. auto.
Qed.

Lemma validate_pages_loop_sound (pages : list pyval) :
  forall (validated out : list Page),
    validate_pages_loop pages validated = Ok out ->
    exists added,
      out = validated ++ added /\
      Forall (fun p => exists page, In page pages /\ _validate_page page = Ok p) added.
Proof.
  induction pages as [|x r IH]; intros validated out H; simpl in H.
  - injection H as <-. exists []. split; [now rewrite app_nil_r | constructor].
  - destruct (_validate_page x) as [p|e] eqn:Hx; simpl in H; [|discriminate].
    destruct (IH _ _ H) as (added & -> & Hall).
    exists (p :: added). split; [now rewrite <- app_assoc|].
    constructor.
    + exists x. split; [now left | exact Hx].
    + eapply Forall_impl; [| exact Hall].
      intros a (page & Hin & Hv). exists page. split; [now right | exact Hv].
Qed.

Lemma select_incl {A : Type} (mask : list bool) (l : list A) (x : A) :
  In x (select mask l) -> In x l.
Proof.
  revert mask. induction l as [|y r IH]; intros [|b m]; simpl; try tauto.
  destruct b; simpl; intros H.
  - destruct H as [H|H]; [now left | right; eauto].
  - right; eauto.
Qed.

(** The deduplicator makes no item: every item of its output is an item of
    one of its input pages. *)
Lemma dedup_items_incl (pages : list Page) (p' : Page) (li : LineItem) :
  In p' (_deduplicate_items pages) -> In li (bill_items p') ->
  exists p, In p pages /\ In li (bill_items p).
Proof.
  intros Hp Hli.
  unfold _deduplicate_items in Hp. rewrite dedup_pages_loop_masks in Hp.
  cbn [app] in Hp. apply in_map_iff in Hp. destruct Hp as ([m p] & <- & Hin).
  exists p. split.
  - eapply in_combine_r; exact Hin.
  - simpl in Hli. eapply select_incl; exact Hli.
Qed.

Lemma numeric_fields_of_dict (d : list (string * pyval)) (a r q : float) :
  numeric_fields (PDict d) = Ok (a, r, q) ->
  py_float (raw_number d "item_amount") = Ok a /\
  py_float (raw_number d "item_rate") = Ok r /\
  py_float (raw_number d "item_quantity") = Ok q.
Proof.
  unfold numeric_fields. cbn [py_get bind]. fold (raw_number d "item_amount").
  fold (raw_number d "item_rate"). fold (raw_number d "item_quantity").
  destruct (py_float (raw_number d "item_amount")) as [a'|e]; [|discriminate].
  cbn [bind].
  destruct (py_float (raw_number d "item_rate")) as [r'|e]; [|discriminate].
  cbn [bind].
  destruct (py_float (raw_number d "item_quantity")) as [q'|e]; [|discriminate].
  cbn [bind]. intro H. injection H as <- <- <-. auto.
Qed.

(** The sums of step 5 are one sum over the items in scan order. *)
Lemma add_entries_sum (entries : list LineItem) (acc : float) :
  add_entries entries acc = sum_amounts entries acc.
Proof.
  revert acc. induction entries as [|x r IH]; intro acc; simpl; [reflexivity|].
  apply IH.
Qed.

Lemma add_pages_sum (clean_data : list Page) (acc : float) :
  add_pages clean_data acc = sum_amounts (all_items clean_data) acc.
Proof.
  revert acc. unfold all_items, sum_amounts.
  induction clean_data as [|p r IH]; intro acc; simpl; [reflexivity|].
  rewrite IH, add_entries_sum, fold_left_app. reflexivity.
Qed.

Lemma item_count_total_sum (clean_data : list Page) :
  item_count_total clean_data =
    list_sum (map (fun p => List.length (bill_items p)) clean_data) /\
  item_count_total clean_data = List.length (all_items clean_data).
Proof.
  unfold all_items.
  induction clean_data as [|p r [IH1 IH2]]; simpl; [now split|].
  rewrite length_app. split; congruence.
Qed.

(** C2. When validation and deduplication return the pages [clean], the
    reconciled result holds these pages, as item count the sum of the
    lengths of their item lists (the number of items over all pages), and as
    amount the sum of the amounts of all their items, added in scan order
    from 0.0 and rounded to 2 decimal places.  For no page at all the result
    is no page, count 0 and amount 0.0, and no exception. *)
Theorem reconciled_totals (pages : list pyval) (clean : list Page) :
  validate_and_deduplicate pages = Ok clean ->
  (exists result,
     reconcile pages = Ok result /\
     pagewise_line_items result = clean /\
     total_item_count result =
       list_sum (map (fun p => List.length (bill_items p)) clean) /\
     total_item_count result = List.length (all_items clean) /\
     reconciled_amount result = round2 (sum_amounts (all_items clean) zero))
  /\ validate_and_deduplicate [] = Ok []
  /\ reconcile [] =
       Ok {| pagewise_line_items := [];
             total_item_count := 0;
             reconciled_amount := zero |}.
Proof.
  intro H. split; [| split; reflexivity].
  unfold reconcile. rewrite H. cbn [bind].
  eexists. split; [reflexivity|]. cbn [pagewise_line_items total_item_count reconciled_amount].
  destruct (item_count_total_sum clean) as [H1 H2].
  repeat apply conj; auto.
  unfold calculated_total_sum. now rewrite add_pages_sum.
Qed.

(** Three raw pages: an item of 10.5, the same item again, an item of 20.0. *)
Lemma reconciled_totals_witness :
  let clean :=
    [ {| page_no := "1"; page_type := BillDetail;
         bill_items := [ line_item "Consultation" (lit 105 10) ] |};
      {| page_no := "2"; page_type := FinalBill; bill_items := [] |};
      {| page_no := "3"; page_type := Pharmacy;
         bill_items := [ line_item "Syringe 5ml" (lit 20 1) ] |} ] in
  reconcile reconciliation_example =
    Ok {| pagewise_line_items := clean;
          total_item_count := 2;
          reconciled_amount := lit 305 10 |} /\
  exists result,
    reconcile reconciliation_example = Ok result /\
    pagewise_line_items result = clean /\
    total_item_count result =
      list_sum (map (fun p => List.length (bill_items p)) clean) /\
    total_item_count result = List.length (all_items clean) /\
    reconciled_amount result = round2 (sum_amounts (all_items clean) zero).
Proof.
  split.
  - vm_compute. reflexivity.
  - refine (proj1 (reconciled_totals reconciliation_example _ _)).
    vm_compute. reflexivity.
Defined.

(** What the validator does tolerate. *)







(** C3 fails on the code: a page whose [page_type] is null makes
    [validate_and_deduplicate] raise [AttributeError], one whose
    [bill_items] is null makes it raise [TypeError]; so do an item that is
    not a record and an integer amount beyond the range of a float
    ([AttributeError], [OverflowError]).  A page with no field at all is
    accepted with the defaults. *)
Theorem null_fields_raise :
  validate_and_deduplicate
    [ PDict [ ("page_no", PStr "1"); ("page_type", PNone); ("bill_items", PList []) ] ]
    = Raise AttributeError /\
  validate_and_deduplicate
    [ PDict [ ("page_no", PStr "1"); ("page_type", PStr "Bill Detail");
              ("bill_items", PNone) ] ]
    = Raise TypeError /\
  validate_and_deduplicate
    [ PDict [ ("page_no", PStr "1"); ("page_type", PStr "Bill Detail");
              ("bill_items", PList [ PStr "Paracetamol" ]) ] ]
    = Raise AttributeError /\
  validate_and_deduplicate
    [ PDict [ ("bill_items",
               PList [ raw_item (PStr "Paracetamol") (PInt (10 ^ 400)) (PInt 1) (PInt 1) ]) ] ]
    = Raise OverflowError /\
  validate_and_deduplicate [ PDict [] ] =
    Ok [ {| page_no := "1"; page_type := BillDetail; bill_items := [] |} ].
Proof. repeat apply conj; vm_compute; reflexivity. Qed.

(** C7, as stated, fails: an amount written "inf" and a rate that is NaN
    pass validation and reach the output. *)
Lemma infinite_amount_in_output :
  validate_and_deduplicate
    [ PDict [ ("page_no", PStr "1"); ("page_type", PStr "Bill Detail");
              ("bill_items",
               PList [ raw_item (PStr "Saline 500ml") (PStr "inf")
                                (PFloat S754_nan) (PInt 1) ]) ] ]
    = Ok [ {| page_no := "1"; page_type := BillDetail;
              bill_items :=
                [ {| item_name := "Saline 500ml";
                     item_amount := S754_infinity false;
                     item_rate := S754_nan;
                     item_quantity := of_Z 1 |} ] |} ] /\
  is_finite (S754_infinity false) = false /\
  is_finite S754_nan = false.
Proof. repeat apply conj; vm_compute; reflexivity. Qed.

(** C7, amended. Every item in the output of [validate_and_deduplicate]
    is what the item validator returned for a raw item of an input page: its
    name is not empty, is trimmed, has at least 2 characters and is not
    classified as a total; its amount, rate and quantity are what [float]
    returns for the raw fields (0.0 for an absent one), of either sign, and
    they are finite when the raw field is absent, a boolean, an integer or a
    finite float. *)
Theorem output_items_are_validated (pages : list pyval) (out : list Page) :
  validate_and_deduplicate pages = Ok out ->
  forall page item,
    In page out -> In item (bill_items page) ->
    item_name item <> "" /\
    strip (item_name item) = item_name item /\
    2 <= String.length (item_name item) /\
    _is_total_or_subtotal (item_name item) = false /\
    exists raw_page d,
      In raw_page pages /\
      raw_item_in raw_page (PDict d) /\
      _validate_item (PDict d) = Ok (Some item) /\
      py_float (raw_number d "item_amount") = Ok (item_amount item) /\
      py_float (raw_number d "item_rate") = Ok (item_rate item) /\
      py_float (raw_number d "item_quantity") = Ok (item_quantity item) /\
      (finite_source (raw_number d "item_amount") = true ->
       is_finite (item_amount item) = true) /\
      (finite_source (raw_number d "item_rate") = true ->
       is_finite (item_rate item) = true) /\
      (finite_source (raw_number d "item_quantity") = true ->
       is_finite (item_quantity item) = true).
Proof.
  intros H page item Hpage Hitem.
  destruct pages as [|x r]; [injection H as <-; destruct Hpage|].
  unfold validate_and_deduplicate in H.
  destruct (validate_pages_loop (x :: r) []) as [validated|e] eqn:Hloop;
    [|discriminate].
  cbn [bind] in H. injection H as <-.
  destruct (dedup_items_incl _ _ _ Hpage Hitem) as (p & Hp & Hin).
  destruct (validate_pages_loop_sound _ _ _ Hloop) as (added & -> & Hall).
  cbn [app] in Hp. rewrite Forall_forall in Hall.
  destruct (Hall p Hp) as (raw_page & Hraw_page & Hvp).
  destruct (validate_page_sound _ _ Hvp item Hin) as (raw & Hraw & Hv).
  destruct (validate_item_accepts raw item Hv)
    as (d & -> & Hname & Hne & Hlen & Htot & Hnum).
  destruct (numeric_fields_of_dict d _ _ _ Hnum) as (Ha & Hr & Hq).
  repeat apply conj; auto.
  - rewrite Hname. apply strip_idem.
  - exists raw_page, d. repeat apply conj; auto;
      intro Hf; eapply py_float_finite; eauto.
Qed.

(** A page with one item whose numbers are an integer, a text and absent. *)
Lemma output_items_are_validated_witness :
  let item := {| item_name := "Saline 500ml"; item_amount := of_Z 45;
                 item_rate := lit 225 10; item_quantity := zero |} in
  item_name item <> "" /\
  strip (item_name item) = item_name item /\
  2 <= String.length (item_name item) /\
  _is_total_or_subtotal (item_name item) = false /\
  is_finite (item_amount item) = true.
Proof.
  pose (raw := [ PDict [ ("page_no", PInt 1);
                         ("bill_items",
                          PList [ PDict [ ("item_name", PStr " Saline 500ml");
                                          ("item_amount", PInt 45);
                                          ("item_rate", PStr "22.5") ] ]) ] ]).
  pose (page := {| page_no := "1"; page_type := BillDetail;
                   bill_items :=
                     [ {| item_name := "Saline 500ml"; item_amount := of_Z 45;
                          item_rate := lit 225 10; item_quantity := zero |} ] |}).
  assert (Hrun : validate_and_deduplicate raw = Ok [ page ])
    by (vm_compute; reflexivity).
  destruct (output_items_are_validated raw [ page ] Hrun page
              {| item_name := "Saline 500ml"; item_amount := of_Z 45;
                 item_rate := lit 225 10; item_quantity := zero |}
              (or_introl eq_refl) (or_introl eq_refl))
    as (H1 & H2 & H3 & H4 & _).
  repeat apply conj; try assumption. vm_compute; reflexivity.
Defined.

End Pipeline.

(* ================================================================== *)
(** ** Further properties of the deduplicator *)

Section DeduplicatorMore.

Import PyFloat PyStr Py ValidationEngine Spec Props.
Local Open Scope string_scope.
Local Open Scope list_scope.

Arguments _are_items_duplicate : simpl never.

Lemma select_all {A : Type} (l : list A) :
  select (repeat true (List.length l)) l = l.
Proof. induction l as [|x r IH]; simpl; congruence. Qed.

(** Scanning the kept items again keeps them all. *)
Lemma flags_from_kept (items : list LineItem) :
  forall seen,
    let kept := select (flags_from seen items) items in
    flags_from seen kept = repeat true (List.length kept).
Proof.
  induction items as [|x r IH]; intro seen; simpl; [reflexivity|].
  destruct (existsb (_are_items_duplicate x) seen) eqn:E; simpl.
  - apply IH.
  - rewrite E. simpl. f_equal. apply IH.
Qed.

Lemma masks_from_kept (pages : list Page) :
  forall seen,
    let out := map masked (combine (masks_from seen pages) pages) in
    map masked (combine (masks_from seen out) out) = out.
Proof.
  induction pages as [|p r IH]; intro seen; [reflexivity|].
  cbn [masks_from combine map]. cbv zeta.
  set (kept := select (flags_from seen (bill_items p)) (bill_items p)).
  assert (Hitems : bill_items (masked (flags_from seen (bill_items p), p)) = kept)
    by reflexivity.
  cbn [masks_from combine map]. rewrite Hitems.
  unfold kept at 1 2. rewrite flags_from_kept. cbv zeta. fold kept.
  rewrite select_all. f_equal.
  - unfold masked at 1. cbn [fst snd]. rewrite Hitems, select_all. reflexivity.
  - apply IH.
Qed.

(** X1. Deduplicating the output of the deduplicator changes nothing. *)
Theorem dedup_idempotent (pages : list Page) :
  _deduplicate_items (_deduplicate_items pages) = _deduplicate_items pages.
Proof.
  unfold _deduplicate_items. rewrite !dedup_pages_loop_masks. cbn [app map].
  apply masks_from_kept.
Qed.

Lemma nth_repeat_true (n i : nat) : i < n -> nth i (repeat true n) false = true.
Proof.
  revert i. induction n as [|n IH]; intros [|i] H; simpl; try lia; auto.
  apply IH. lia.
Qed.

Lemma app_same_length {A : Type} (a c b d : list A) :
  List.length a = List.length c -> a ++ b = c ++ d -> a = c /\ b = d.
Proof.
  revert c. induction a as [|x a IH]; intros [|y c] Hlen H; simpl in *;
    try discriminate; [now split|].
  injection H as -> H. injection Hlen as Hlen.
  destruct (IH c Hlen H) as [-> ->]. now split.
Qed.

(** When every flag is set the masks select everything. *)
Lemma all_flags_all_masks (pages : list Page) :
  forall seen,
    flags_from seen (all_items pages) = repeat true (List.length (all_items pages)) ->
    map masked (combine (masks_from seen pages) pages) = pages.
Proof.
  unfold all_items.
  induction pages as [|p r IH]; intros seen H; [reflexivity|].
  cbn [map List.concat] in H.
  rewrite flags_from_app, length_app, repeat_app in H.
  apply app_same_length in H; [| now rewrite flags_from_length, repeat_length].
  destruct H as [H1 H2].
  cbn [masks_from combine map]. cbv zeta. rewrite H1.
  rewrite H1, select_all in H2. rewrite select_all.
  f_equal.
  - unfold masked, with_items. cbn [fst snd]. rewrite select_all. now destruct p.
  - apply IH. exact H2.
Qed.

Lemma flags_all_true (l : list LineItem) :
  no_earlier_match l -> flags_from [] l = repeat true (List.length l).
Proof.
  intro H. apply nth_ext with (d := false) (d' := false).
  - now rewrite flags_from_length, repeat_length.
  - rewrite flags_from_length. intros i Hi.
    rewrite nth_repeat_true by exact Hi.
    destruct (nth_error l i) as [item|] eqn:E;
      [| apply nth_error_None in E; lia].
    apply (flags_from_spec l [] i item E). split; [reflexivity|].
    intros j earlier Hj _ He. exact (H i j item earlier Hj E He).
Qed.

Lemma all_true_no_earlier_match (l : list LineItem) :
  flags_from [] l = repeat true (List.length l) -> no_earlier_match l.
Proof.
  intros H i j item earlier Hj Hi He.
  assert (Hflag : nth i (flags_from [] l) false = true).
  { rewrite H. apply nth_repeat_true. apply nth_error_Some. congruence. }
  apply (flags_from_spec l [] i item Hi) in Hflag. destruct Hflag as [_ Hall].
  apply (Hall j earlier Hj); [| exact He].
  rewrite H. apply nth_repeat_true. apply nth_error_Some. congruence.
Qed.

Lemma all_items_masked (pages : list Page) :
  forall seen,
    all_items (map masked (combine (masks_from seen pages) pages)) =
    select (flags_from seen (all_items pages)) (all_items pages).
Proof.
  unfold all_items.
  induction pages as [|p r IH]; intro seen; simpl; [reflexivity|].
  rewrite IH, flags_from_app.
  generalize (flags_from (seen ++ select (flags_from seen (bill_items p)) (bill_items p))
                (List.concat (map bill_items r))).
  generalize (List.concat (map bill_items r)).
  generalize (flags_from_length (bill_items p) seen).
  generalize (flags_from seen (bill_items p)).
  generalize (bill_items p).
  induction l as [|x l IHl]; intros [|b m] Hlen rest frest; simpl in *;
    try discriminate; [reflexivity|].
  injection Hlen as Hlen. destruct b; simpl; now rewrite IHl.
Qed.

(** X2. The output of the deduplicator holds no item that matches an item
    before it in scan order, and the deduplicator leaves a page list as it
    is exactly when the list holds no such item. *)
Theorem dedup_fixed_points (pages : list Page) :
  no_earlier_match (all_items (_deduplicate_items pages)) /\
  (_deduplicate_items pages = pages <-> no_earlier_match (all_items pages)).
Proof.
  assert (Hfix : forall ps, no_earlier_match (all_items ps) -> _deduplicate_items ps = ps).
  { intros ps H. unfold _deduplicate_items. rewrite dedup_pages_loop_masks.
    cbn [app map]. apply all_flags_all_masks. now apply flags_all_true. }
  assert (Hout : no_earlier_match (all_items (_deduplicate_items pages))).
  { apply all_true_no_earlier_match.
    unfold _deduplicate_items. rewrite dedup_pages_loop_masks. cbn [app map].
    rewrite all_items_masked. apply (flags_from_kept (all_items pages) []). }
  split; [exact Hout|]. split.
  - intro E. rewrite <- E. exact Hout.
  - apply Hfix.
Qed.

End DeduplicatorMore.

(* ================================================================== *)
(** ** Further properties of the validator *)

Section ValidatorMore.

Import PyFloat PyStr Py ValidationEngine Main Spec Props.
Local Open Scope string_scope.
Local Open Scope list_scope.

Arguments _are_items_duplicate : simpl never.

Lemma validate_page_of_raw (raw : pyval) (p : Page) :
  _validate_page raw = Ok p -> page_of_raw raw p.
Proof.
  destruct raw as [| | | | |l|d]; try discriminate.
  unfold _validate_page. cbn [py_get bind].
  fold (field d "page_no" (PStr "1")) (field d "page_type" (PStr "Bill Detail"))
       (field d "bill_items" (PList [])).
  destruct (_normalize_page_type (field d "page_type" (PStr "Bill Detail")))
    as [t|e] eqn:Ht; [|discriminate].
  cbn [bind].
  destruct (py_iter (field d "bill_items" (PList []))) as [items|e]; [|discriminate].
  cbn [bind].
  destruct (validate_items_loop items []) as [v|e]; [|discriminate].
  cbn [bind]. intro H. injection H as <-.
  exists d. cbn [page_no page_type]. auto.
Qed.

Lemma validate_pages_loop_pointwise (pages : list pyval) :
  forall validated out,
    validate_pages_loop pages validated = Ok out ->
    exists added,
      out = validated ++ added /\
      Forall2 (fun raw p => _validate_page raw = Ok p) pages added.
Proof.
  induction pages as [|x r IH]; intros validated out H; simpl in H.
  - injection H as <-. exists []. split; [now rewrite app_nil_r | constructor].
  - destruct (_validate_page x) as [p|e] eqn:Hx; simpl in H; [|discriminate].
    destruct (IH _ _ H) as (added & -> & Hall).
    exists (p :: added). split; [now rewrite <- app_assoc|]. now constructor.
Qed.

(** The deduplicator gives each page back with its number and type. *)
Lemma dedup_pointwise (pages : list Page) :
  forall seen,
    Forall2 (fun p o => page_no o = page_no p /\ page_type o = page_type p)
            pages (map masked (combine (masks_from seen pages) pages)).
Proof.
  induction pages as [|p r IH]; intro seen; simpl; constructor.
  - now split.
  - apply IH.
Qed.

Lemma page_of_raw_through (raws : list pyval) (vs outs : list Page) :
  Forall2 (fun raw v => _validate_page raw = Ok v) raws vs ->
  Forall2 (fun p o => page_no o = page_no p /\ page_type o = page_type p) vs outs ->
  Forall2 page_of_raw raws outs.
Proof.
  intro Hall. revert outs.
  induction Hall as [|raw v raws vs Hv Hall IH]; intros outs Hd;
    inversion Hd as [|? o ? os [Hno Hty] Hrest]; subst; constructor.
  - destruct (validate_page_of_raw _ _ Hv) as (d & -> & Hn & Ht).
    exists d. rewrite Hno, Hty. auto.
  - now apply IH.
Qed.

Lemma pages_are_preserved_aux (pages : list pyval) (out : list Page) :
  validate_and_deduplicate pages = Ok out ->
  Forall2 page_of_raw pages out /\ List.length out = List.length pages.
Proof.
  intro H.
  assert (HF : Forall2 page_of_raw pages out).
  { destruct pages as [|x r]; [injection H as <-; constructor|].
    unfold validate_and_deduplicate in H.
    destruct (validate_pages_loop (x :: r) []) as [validated|e] eqn:Hloop;
      [|discriminate].
    cbn [bind] in H. injection H as <-.
    destruct (validate_pages_loop_pointwise _ _ _ Hloop) as (added & -> & Hall).
    cbn [app]. unfold _deduplicate_items. rewrite dedup_pages_loop_masks. cbn [app].
    eapply page_of_raw_through; [exact Hall | apply dedup_pointwise]. }
  split; [exact HF|]. symmetry. eapply Forall2_length; exact HF.
Qed.

(** X3. When [validate_and_deduplicate] returns, it returns one page for
    each raw page, in the same order; each raw page is a dict, and the page
    made of it carries its number as text ("1" when it has none) and its
    normalized type. *)
Theorem pages_are_preserved (pages : list pyval) (out : list Page) :
  validate_and_deduplicate pages = Ok out ->
  Forall2 page_of_raw pages out /\ List.length out = List.length pages.
Proof.
  intro H.
  assert (HF : Forall2 page_of_raw pages out).
  { destruct pages as [|x r]; [injection H as <-; constructor|].
    unfold validate_and_deduplicate in H.
    destruct (validate_pages_loop (x :: r) []) as [validated|e] eqn:Hloop;
      [|discriminate].
    cbn [bind] in H. injection H as <-.
    destruct (validate_pages_loop_pointwise _ _ _ Hloop) as (added & -> & Hall).
    cbn [app]. unfold _deduplicate_items. rewrite dedup_pages_loop_masks. cbn [app].
    eapply page_of_raw_through; [exact Hall | apply dedup_pointwise]. }
  split; [exact HF|]. symmetry. eapply Forall2_length; exact HF.
Qed.

(** Two raw pages, the first with neither number nor type. *)
Lemma pages_are_preserved_witness :
  let pages :=
    [ PDict [ ("bill_items", PList [ raw_item (PStr "Saline 500ml") (PInt 45) (PInt 45) (PInt 1) ]) ];
      PDict [ ("page_no", PInt 2); ("page_type", PStr "FINAL BILL") ] ] in
  let out :=
    [ {| page_no := "1"; page_type := BillDetail;
         bill_items := [ {| item_name := "Saline 500ml"; item_amount := of_Z 45;
                            item_rate := of_Z 45; item_quantity := of_Z 1 |} ] |};
      {| page_no := "2"; page_type := FinalBill; bill_items := [] |} ] in
  Forall2 page_of_raw pages out /\ List.length out = List.length pages.
Proof.
  apply pages_are_preserved. vm_compute. reflexivity.
Defined.

Lemma validate_item_raises (item : pyval) (e : exn) :
  _validate_item item = Raise e -> escapes e = true.
Proof.
  destruct item as [| | | | |l|d]; try (intro H; injection H as <-; reflexivity).
  unfold _validate_item. cbn [py_get bind].
  destruct (_ || _)%bool; [discriminate|].
  destruct (_is_total_or_subtotal _); [discriminate|].
  destruct (numeric_fields (PDict d)) as [[[a r] q]|e']; cbn [bind try_except];
    [discriminate|].
  destruct e'; cbn [value_or_type_error bind]; try discriminate;
    intro H; injection H as <-; reflexivity.
Qed.

Lemma validate_items_loop_raises (items : list pyval) (e : exn) :
  forall validated,
    validate_items_loop items validated = Raise e -> escapes e = true.
Proof.
  induction items as [|x r IH]; intros validated H; simpl in H; [discriminate|].
  destruct (_validate_item x) as [[li|]|e'] eqn:Hx; cbn [bind] in H; eauto.
  injection H as <-. eapply validate_item_raises; eauto.
Qed.

Lemma validate_page_raises (page : pyval) (e : exn) :
  _validate_page page = Raise e -> escapes e = true.
Proof.
  destruct page as [| | | | |l|d]; try (intro H; injection H as <-; reflexivity).
  unfold _validate_page. cbn [py_get bind].
  destruct (_normalize_page_type _) as [t|e'] eqn:Ht; cbn [bind].
  - destruct (py_iter _) as [items|e'] eqn:Hi; cbn [bind].
    + destruct (validate_items_loop items []) as [v|e'] eqn:Hl; cbn [bind];
        [discriminate|].
      intro H. injection H as <-. eapply validate_items_loop_raises; eauto.
    + intro H. injection H as <-.
      destruct (match dict_lookup "bill_items" d with Some x => x | None => PList [] end);
        simpl in Hi; try discriminate; injection Hi as <-; reflexivity.
  - intro H. injection H as <-.
    destruct (match dict_lookup "page_type" d with Some x => x | None => PStr "Bill Detail" end);
      simpl in Ht; try discriminate; try (injection Ht as <-; reflexivity).
    repeat match type of Ht with context [if ?b then _ else _] => destruct b end;
      discriminate.
Qed.

Lemma validate_pages_loop_raises (pages : list pyval) (e : exn) :
  forall validated,
    validate_pages_loop pages validated = Raise e -> escapes e = true.
Proof.
  induction pages as [|x r IH]; intros validated H; simpl in H; [discriminate|].
  destruct (_validate_page x) as [p|e'] eqn:Hx; cbn [bind] in H; eauto.
  injection H as <-. eapply validate_page_raises; eauto.
Qed.

Lemma escaping_exceptions (pages : list pyval) (e : exn) :
  validate_and_deduplicate pages = Raise e ->
  e = AttributeError \/ e = TypeError \/ e = OverflowError.
Proof.
  intro H. assert (He : escapes e = true).
  { destruct pages as [|x r]; [discriminate|].
    unfold validate_and_deduplicate in H.
    destruct (validate_pages_loop (x :: r) []) as [v|e'] eqn:Hl; cbn [bind] in H;
      [discriminate|].
    injection H as <-. eapply validate_pages_loop_raises; eauto. }
  destruct e; auto; discriminate.
Qed.





End ValidatorMore.

(* ================================================================== *)
(** ** Letter case, padding and running the validator twice *)

Section Normalization.

Import PyFloat PyStr Py ValidationEngine Main Spec Props.
Local Open Scope string_scope.
Local Open Scope list_scope.

Arguments _are_items_duplicate : simpl never.

Lemma lower_char_idem (c : ascii) : lower_char (lower_char c) = lower_char c.
Proof. destruct c as [[] [] [] [] [] [] [] []]; reflexivity. Qed.

Lemma lower_idem (s : string) : lower (lower s) = lower s.
Proof.
  induction s as [|c s IH]; simpl; [reflexivity|].
  now rewrite lower_char_idem, IH.
Qed.

(** The text both classifiers and the scorer work on. *)
Lemma normal_form_lower (s : string) : strip (lower (lower s)) = strip (lower s).
Proof. now rewrite lower_idem. Qed.

Lemma normal_form_strip (s : string) : strip (lower (strip s)) = strip (lower s).
Proof. now rewrite <- !strip_lower, strip_idem. Qed.

(** X6. [_normalize_page_type] reads its own three results back as
    themselves, and looks at a text only through its lower-cased, trimmed
    form: changing the letter case or the surrounding white space of a page
    type does not change its normalization. *)
Theorem page_type_normal_forms (t : PageType) (s : string) :
  _normalize_page_type (PStr (page_type_text t)) = Ok t /\
  _normalize_page_type (PStr (lower s)) = _normalize_page_type (PStr s) /\
  _normalize_page_type (PStr (strip s)) = _normalize_page_type (PStr s).
Proof.
  repeat apply conj.
  - destruct t; vm_compute; reflexivity.
  - unfold _normalize_page_type. now rewrite normal_form_lower.
  - unfold _normalize_page_type. now rewrite normal_form_strip.
Qed.

(** X7. The total classifier looks at a name only through its lower-cased,
    trimmed form: changing letter case or surrounding white space does not
    change its answer. *)
Theorem total_classifier_ignores_case_and_padding (name : string) :
  _is_total_or_subtotal (lower name) = _is_total_or_subtotal name /\
  _is_total_or_subtotal (strip name) = _is_total_or_subtotal name.
Proof.
  unfold _is_total_or_subtotal.
  now rewrite normal_form_lower, normal_form_strip.
Qed.

Lemma total_keyword_loop_long (item_lower : string) (keywords : list string) :
  30 <= String.length item_lower ->
  total_keyword_loop item_lower keywords = false.
Proof.
  intro H. apply Nat.ltb_ge in H.
  induction keywords as [|k ks IH]; simpl; [reflexivity|].
  rewrite H, andb_false_r. exact IH.
Qed.

Lemma strip_lower_length (s : string) :
  String.length (strip (lower s)) = String.length (strip s).
Proof. now rewrite strip_lower, lower_length. Qed.

(** X8. A name that has 30 characters or more once trimmed is never
    classified as a total line, whatever keywords it holds; the item
    validator does not reject an item for such a name. *)
Theorem long_names_are_never_totals (name : string) :
  30 <= String.length (strip name) ->
  _is_total_or_subtotal name = false /\
  forall amount rate quantity : float,
    _validate_item (raw_item (PStr name) (PFloat amount) (PFloat rate) (PFloat quantity))
      = Ok (Some {| item_name := strip name; item_amount := amount;
                    item_rate := rate; item_quantity := quantity |}).
Proof.
  intro H.
  assert (Htot : forall n, 30 <= String.length (strip n) -> _is_total_or_subtotal n = false).
  { intros n Hn. unfold _is_total_or_subtotal. apply total_keyword_loop_long.
    now rewrite strip_lower_length. }
  split; [now apply Htot|].
  intros amount rate quantity.
  unfold raw_item.
  rewrite (validate_item_accepted _ amount rate quantity);
    cbn [name_value_of dict_lookup String.eqb Ascii.eqb Bool.eqb py_str];
    try reflexivity.
  - intro E. rewrite E in H. cbn in H. lia.
  - lia.
  - apply Htot. now rewrite strip_idem.
Qed.

Lemma long_names_are_never_totals_witness :
  _is_total_or_subtotal "  Total parenteral nutrition 1000ml " = false /\
  forall amount rate quantity : float,
    _validate_item (raw_item (PStr "  Total parenteral nutrition 1000ml ")
                             (PFloat amount) (PFloat rate) (PFloat quantity))
      = Ok (Some {| item_name := strip "  Total parenteral nutrition 1000ml ";
                    item_amount := amount;
                    item_rate := rate; item_quantity := quantity |}).
Proof.
  apply (long_names_are_never_totals "  Total parenteral nutrition 1000ml ").
  vm_compute. lia.
Defined.

End Normalization.

(* ================================================================== *)
(** ** Running the core on its own output; symmetry of the scorer *)

Section Stability.

Import PyFloat PyStr Py ValidationEngine Main Spec Props.
Local Open Scope string_scope.
Local Open Scope list_scope.

Arguments _are_items_duplicate : simpl never.

Lemma revalidate_item (li : LineItem) :
  valid_item li -> _validate_item (raw_of_item li) = Ok (Some li).
Proof.
  intros [raw H]. destruct (validate_item_accepts raw li H)
    as (d & _ & Hname & Hne & Hlen & Htot & _).
  assert (Htrim : strip (item_name li) = item_name li)
    by (rewrite Hname; apply strip_idem).
  unfold raw_of_item.
  rewrite (validate_item_accepted _ (item_amount li) (item_rate li) (item_quantity li));
    cbn [name_value_of dict_lookup String.eqb Ascii.eqb Bool.eqb py_str];
    rewrite ?Htrim; auto.
  now destruct li.
Qed.

Lemma revalidate_items (items : list LineItem) :
  Forall valid_item items ->
  forall validated,
    validate_items_loop (map raw_of_item items) validated = Ok (validated ++ items).
Proof.
  induction 1 as [|li items Hli Hall IH]; intro validated; simpl.
  - now rewrite app_nil_r.
  - rewrite (revalidate_item li Hli). cbn [bind]. rewrite IH.
    now rewrite <- app_assoc.
Qed.

Lemma normalize_own_text (t : PageType) :
  _normalize_page_type (PStr (page_type_text t)) = Ok t.
Proof. destruct t; vm_compute; reflexivity. Qed.

Lemma revalidate_page (p : Page) :
  Forall valid_item (bill_items p) -> _validate_page (raw_of_page p) = Ok p.
Proof.
  intro H. unfold _validate_page, raw_of_page.
  cbn [py_get bind dict_lookup String.eqb Ascii.eqb Bool.eqb py_str py_iter].
  rewrite normalize_own_text. cbn [bind].
  rewrite (revalidate_items _ H []). cbn [bind app]. now destruct p.
Qed.

Lemma revalidate_pages (pages : list Page) :
  Forall (fun p => Forall valid_item (bill_items p)) pages ->
  forall validated,
    validate_pages_loop (map raw_of_page pages) validated = Ok (validated ++ pages).
Proof.
  induction 1 as [|p pages Hp Hall IH]; intro validated; simpl.
  - now rewrite app_nil_r.
  - rewrite (revalidate_page p Hp). cbn [bind]. rewrite IH.
    now rewrite <- app_assoc.
Qed.

Lemma dedup_twice (pages : list Page) :
  _deduplicate_items (_deduplicate_items pages) = _deduplicate_items pages.
Proof.
  unfold _deduplicate_items. rewrite !dedup_pages_loop_masks. cbn [app map].
  apply masks_from_kept.
Qed.

(** The items of the pages the page loop returns are valid items. *)
Lemma validated_pages_hold_valid_items (pages : list pyval) (validated : list Page) :
  validate_pages_loop pages [] = Ok validated ->
  forall p li, In p validated -> In li (bill_items p) -> valid_item li.
Proof.
  intros H p li Hp Hli.
  destruct (validate_pages_loop_sound _ _ _ H) as (added & -> & Hall).
  cbn [app] in Hp. rewrite Forall_forall in Hall.
  destruct (Hall p Hp) as (raw_page & _ & Hvp).
  destruct (validate_page_sound _ _ Hvp li Hli) as (raw & _ & Hv).
  now exists raw.
Qed.

(** X9. The core is stable on its own output: when
    [validate_and_deduplicate] returns pages, handing these pages back to it
    as raw records returns them unchanged. *)
Theorem core_is_stable_on_its_output (pages : list pyval) (out : list Page) :
  validate_and_deduplicate pages = Ok out ->
  validate_and_deduplicate (map raw_of_page out) = Ok out.
Proof.
  intro H. destruct pages as [|x r]; [injection H as <-; reflexivity|].
  unfold validate_and_deduplicate in H.
  destruct (validate_pages_loop (x :: r) []) as [validated|e] eqn:Hloop;
    [|discriminate].
  cbn [bind] in H. injection H as <-.
  assert (Hvalid : Forall (fun p => Forall valid_item (bill_items p))
                          (_deduplicate_items validated)).
  { apply Forall_forall. intros p Hp. apply Forall_forall. intros li Hli.
    destruct (dedup_items_incl _ _ _ Hp Hli) as (p0 & Hp0 & Hli0).
    eapply validated_pages_hold_valid_items; eauto. }
  unfold validate_and_deduplicate.
  destruct (_deduplicate_items validated) as [|o os] eqn:E; [reflexivity|].
  cbn [map]. change (raw_of_page o :: map raw_of_page os) with (map raw_of_page (o :: os)).
  rewrite (revalidate_pages _ Hvalid []). cbn [bind app].
  rewrite <- E. now rewrite dedup_twice.
Qed.

(** The reconciliation example, twice through the core. *)
Lemma core_is_stable_on_its_output_witness :
  let out :=
    [ {| page_no := "1"; page_type := BillDetail;
         bill_items := [ line_item "Consultation" (lit 105 10) ] |};
      {| page_no := "2"; page_type := FinalBill; bill_items := [] |};
      {| page_no := "3"; page_type := Pharmacy;
         bill_items := [ line_item "Syringe 5ml" (lit 20 1) ] |} ] in
  validate_and_deduplicate (map raw_of_page out) = Ok out.
Proof.
  apply (core_is_stable_on_its_output reconciliation_example).
  vm_compute. reflexivity.
Defined.

Lemma word_set_nodup (name : string) : NoDup (word_set name).
Proof.
  unfold word_set. induction (split name) as [|w ws IH]; simpl.
  - constructor.
  - now apply set_add_nodup.
Qed.

Lemma nodup_same_length (a b : list string) :
  NoDup a -> NoDup b -> (forall x, In x a <-> In x b) ->
  List.length a = List.length b.
Proof.
  intros Ha Hb H. apply Nat.le_antisymm; apply NoDup_incl_length; auto;
    intros x Hx; now apply H.
Qed.

Lemma set_inter_length_comm (a b : set string) :
  NoDup a -> NoDup b ->
  List.length (set_inter string_dec a b) = List.length (set_inter string_dec b a).
Proof.
  intros Ha Hb. apply nodup_same_length; try now apply set_inter_nodup.
  intro x. rewrite !set_inter_iff. tauto.
Qed.

Lemma set_union_length_comm (a b : set string) :
  NoDup a -> NoDup b ->
  List.length (set_union string_dec a b) = List.length (set_union string_dec b a).
Proof.
  intros Ha Hb. apply nodup_same_length; try now apply set_union_nodup.
  intro x. rewrite !set_union_iff. tauto.
Qed.

Lemma similarity_comm (name1 name2 : string) :
  _calculate_name_similarity name1 name2 = _calculate_name_similarity name2 name1.
Proof.
  unfold _calculate_name_similarity.
  pose proof (word_set_nodup name1) as H1. pose proof (word_set_nodup name2) as H2.
  rewrite (set_inter_length_comm _ _ H1 H2), (set_union_length_comm _ _ H1 H2).
  destruct (word_set name1), (word_set name2); reflexivity.
Qed.

(** X10. The name similarity does not depend on the order of the two
    names, and every item is a duplicate of itself. *)
Theorem similarity_is_symmetric (item1 item2 : LineItem) :
  _calculate_name_similarity (item_name item1) (item_name item2) =
    _calculate_name_similarity (item_name item2) (item_name item1) /\
  _calculate_name_similarity (strip (lower (item_name item1)))
                             (strip (lower (item_name item2))) =
    _calculate_name_similarity (strip (lower (item_name item2)))
                               (strip (lower (item_name item1))) /\
  _are_items_duplicate item1 item1 = true.
Proof.
  repeat apply conj; try apply similarity_comm.
  unfold _are_items_duplicate. now rewrite String.eqb_refl.
Qed.

(** X11. For two items with the same amount the verdict of the scorer does
    not depend on the order of its arguments: it is only through the
    amounts that the order can matter. *)
Theorem equal_amounts_symmetric_verdict (item1 item2 : LineItem) :
  item_amount item1 = item_amount item2 ->
  _are_items_duplicate item1 item2 = _are_items_duplicate item2 item1.
Proof.
  intro H. unfold _are_items_duplicate. rewrite H.
  rewrite (String.eqb_sym (strip (lower (item_name item2)))).
  now rewrite (similarity_comm (strip (lower (item_name item2)))).
Qed.

(** The pair whose verdict depends on the order, with one amount for both. *)
Lemma equal_amounts_symmetric_verdict_witness :
  _are_items_duplicate
    (line_item "Paracetamol 500 mg tab strip" (lit 100 1))
    (line_item "Paracetamol 500 mg tab strip 10s" (lit 100 1)) =
  _are_items_duplicate
    (line_item "Paracetamol 500 mg tab strip 10s" (lit 100 1))
    (line_item "Paracetamol 500 mg tab strip" (lit 100 1)).
Proof.
  apply (equal_amounts_symmetric_verdict
           (line_item "Paracetamol 500 mg tab strip" (lit 100 1))
           (line_item "Paracetamol 500 mg tab strip 10s" (lit 100 1))).
  reflexivity.
Defined.

End Stability.

(* ================================================================== *)
(** ** The extractor: finding the JSON object in a reply *)

Section JsonInReply.

Import PyStr PySlice Py BillExtractor Props.
Local Open Scope string_scope.

Lemma sapp_assoc (a b c : string) : (a ++ b) ++ c = a ++ (b ++ c).
Proof. induction a as [|x a IH]; simpl; congruence. Qed.

Lemma sapp_nil_r (a : string) : a ++ "" = a.
Proof. induction a as [|x a IH]; simpl; congruence. Qed.

Lemma sapp_length (a b : string) :
  String.length (a ++ b) = String.length a + String.length b.
Proof. induction a as [|x a IH]; simpl; congruence. Qed.

Lemma has_char_app (c : ascii) (a b : string) :
  has_char c (a ++ b) = has_char c a || has_char c b.
Proof.
  induction a as [|x a IH]; simpl; [reflexivity|].
  now rewrite IH, orb_assoc.
Qed.

Lemma around_assoc (q1 m q2 : string) :
  around q1 m q2 = (q1 ++ String "{" m) ++ String "}" q2.
Proof. unfold around. now rewrite sapp_assoc. Qed.

(** *** White space *)

Lemma lstrip_before (c : ascii) (q rest : string) :
  is_space c = false ->
  exists q',
    lstrip (q ++ String c rest) = q' ++ String c rest /\
    forall x, has_char x q = false -> has_char x q' = false.
Proof.
  intro Hc. induction q as [|a q IH]; simpl.
  - rewrite Hc. exists EmptyString. auto.
  - destruct (is_space a).
    + destruct IH as (q' & E & H). exists q'. split; [exact E|].
      intros x Hx. apply orb_false_iff in Hx. now apply H.
    + exists (String a q). auto.
Qed.

Lemma rstrip_nonspace (c : ascii) (b : string) :
  is_space c = false -> rstrip (String c b) = String c (rstrip b).
Proof. intro Hc. simpl. destruct (rstrip b); [now rewrite Hc | reflexivity]. Qed.

Lemma rstrip_after (x y : string) :
  rstrip y <> EmptyString -> rstrip (x ++ y) = x ++ rstrip y.
Proof.
  intro Hy. induction x as [|a x IH]; simpl; [reflexivity|].
  rewrite IH. destruct (x ++ rstrip y) as [|b r] eqn:E; [|reflexivity].
  destruct x; simpl in E; [contradiction | discriminate].
Qed.

Lemma has_char_rstrip (x : ascii) (s : string) :
  has_char x s = false -> has_char x (rstrip s) = false.
Proof.
  induction s as [|a s IH]; simpl; [reflexivity|].
  intro H. apply orb_false_iff in H. destruct H as [Ha Hs].
  destruct (rstrip s) as [|b r] eqn:E.
  - destruct (is_space a); simpl; [reflexivity | now rewrite Ha].
  - simpl in *. rewrite Ha. now apply IH.
Qed.

Lemma strip_holds_object (m c : string) :
  holds_object m c -> holds_object m (strip c).
Proof.
  intros (q1 & q2 & -> & H1 & H2). unfold strip, around.
  destruct (lstrip_before "{" q1 (m ++ String "}" q2) eq_refl) as (q1' & -> & Hq).
  fold (around q1' m q2). rewrite around_assoc.
  rewrite rstrip_after by (rewrite rstrip_nonspace by reflexivity; discriminate).
  rewrite rstrip_nonspace by reflexivity. rewrite <- around_assoc.
  exists q1', (rstrip q2). repeat apply conj; auto.
  now apply has_char_rstrip.
Qed.

(** *** The fence in front *)

Lemma prefix_before_brace (f q rest : string) :
  prefix f (q ++ String "{" rest) = true ->
  has_char "{" f = false ->
  exists q', q = f ++ q'.
Proof.
  revert q. induction f as [|a f IH]; intros q Hp Hf.
  - now exists q.
  - simpl in Hf. apply orb_false_iff in Hf. destruct Hf as [Ha Hf].
    destruct q as [|b q]; simpl in Hp.
    + destruct (ascii_dec a "{") as [->|Hne]; [discriminate|discriminate].
    + destruct (ascii_dec a b) as [->|Hne]; [|discriminate].
      destruct (IH q Hp Hf) as [q' ->]. now exists q'.
Qed.

Lemma drop_length_app (f x : string) : drop (String.length f) (f ++ x) = x.
Proof. induction f as [|a f IH]; simpl; [now destruct x | exact IH]. Qed.

Lemma drop_fence_holds_object (f m c : string) :
  has_char "{" f = false ->
  holds_object m c ->
  startswith f c = true ->
  holds_object m (drop (String.length f) c).
Proof.
  intros Hf (q1 & q2 & -> & H1 & H2) Hp. unfold startswith, around in Hp.
  destruct (prefix_before_brace f q1 _ Hp Hf) as [q' ->].
  unfold around. rewrite sapp_assoc, drop_length_app.
  rewrite has_char_app in H1. apply orb_false_iff in H1.
  exists q', q2. repeat apply conj; tauto.
Qed.

(** *** The fence at the end *)

Lemma endswith_suffix (p s : string) :
  endswith p s = true -> exists a, s = a ++ p.
Proof.
  induction s as [|x s IH]; simpl.
  - rewrite orb_false_r. intro H. apply String.eqb_eq in H. subst.
    now exists EmptyString.
  - intro H. apply orb_true_iff in H. destruct H as [H|H].
    + apply String.eqb_eq in H. subst. now exists EmptyString.
    + destruct (IH H) as [a ->]. now exists (String x a).
Qed.

Lemma sapp_eq_split (a p x y : string) :
  a ++ p = x ++ y ->
  (exists z, x = a ++ z /\ p = z ++ y) \/ (exists z, a = x ++ z /\ y = z ++ p).
Proof.
  revert x. induction a as [|c a IH]; intros x H; simpl in H.
  - left. now exists x.
  - destruct x as [|d x]; simpl in H.
    + right. now exists (String c a).
    + injection H as -> H. destruct (IH x H) as [(z & -> & ->) | (z & -> & ->)].
      * left. now exists z.
      * right. now exists z.
Qed.

Lemma take_length_app (a b : string) : take (String.length a) (a ++ b) = a.
Proof. induction a as [|c a IH]; simpl; [now destruct b | now rewrite IH]. Qed.

Lemma drop_last_app (a p : string) : drop_last (String.length p) (a ++ p) = a.
Proof.
  unfold drop_last. rewrite sapp_length.
  replace (String.length a + String.length p - String.length p)
    with (String.length a) by lia.
  apply take_length_app.
Qed.

Lemma drop_last_fence_holds_object (f m c : string) :
  has_char "}" f = false ->
  holds_object m c ->
  endswith f c = true ->
  holds_object m (drop_last (String.length f) c).
Proof.
  intros Hf (q1 & q2 & -> & H1 & H2) He.
  destruct (endswith_suffix _ _ He) as [a Ha].
  rewrite around_assoc in Ha. symmetry in Ha.
  destruct (sapp_eq_split _ _ _ _ Ha) as [(z & _ & Hz) | (z & Hz1 & Hz2)].
  - rewrite Hz, has_char_app in Hf. simpl in Hf.
    rewrite orb_true_r in Hf. discriminate.
  - destruct z as [|c z]; simpl in Hz2.
    + rewrite <- Hz2 in Hf. simpl in Hf. discriminate.
    + injection Hz2 as <- ->.
      rewrite has_char_app in H2. apply orb_false_iff in H2.
      assert (E : around q1 m (z ++ f) = around q1 m z ++ f).
      { unfold around. rewrite sapp_assoc. cbn [append].
        now rewrite sapp_assoc. }
      rewrite E, drop_last_app.
      exists q1, z. repeat apply conj; tauto.
Qed.

(** *** The braces *)

Lemma find_brace (q rest : string) (i : Z) :
  has_char "{" q = false ->
  find_from "{" (q ++ String "{" rest) i = (i + Z.of_nat (String.length q))%Z.
Proof.
  revert i. induction q as [|a q IH]; intros i H.
  - simpl. destruct rest; simpl; lia.
  - simpl in H. apply orb_false_iff in H. destruct H as [Ha Hq].
    cbn [append find_from prefix].
    destruct (ascii_dec "{" a) as [<-|Hne]; [discriminate|].
    rewrite (IH (i + 1)%Z Hq). cbn [String.length]. lia.
Qed.

Lemma rfind_none (s : string) (i : Z) :
  has_char "}" s = false -> rfind_from "}" s i = (-1)%Z.
Proof.
  revert i. induction s as [|a s IH]; intros i H; [reflexivity|].
  simpl in H. apply orb_false_iff in H. destruct H as [Ha Hs].
  cbn [rfind_from prefix]. rewrite (IH _ Hs).
  change (0 <=? -1)%Z with false. cbv iota.
  destruct (ascii_dec "}" a) as [<-|Hne]; [discriminate | reflexivity].
Qed.

Lemma rfind_brace (x q2 : string) (i : Z) :
  (0 <= i)%Z ->
  has_char "}" q2 = false ->
  rfind_from "}" (x ++ String "}" q2) i = (i + Z.of_nat (String.length x))%Z.
Proof.
  intros Hi H2. revert i Hi. induction x as [|a x IH]; intros i Hi.
  - cbn [append rfind_from prefix]. rewrite (rfind_none _ _ H2).
    change (0 <=? -1)%Z with false. cbv iota.
    destruct (ascii_dec "}" "}") as [_|Hne]; [| contradiction].
    cbn [String.length Z.of_nat]. destruct q2; cbn [prefix]; lia.
  - cbn [append rfind_from]. rewrite (IH (i + 1)%Z) by lia.
    destruct (0 <=? i + 1 + Z.of_nat (String.length x))%Z eqn:E.
    + cbn [String.length]. lia.
    + apply Z.leb_gt in E. lia.
Qed.

Lemma slice_object (q1 m q2 : string) :
  slice (Z.of_nat (String.length q1))
        (Z.of_nat (String.length q1 + String.length m + 1) + 1)
        (around q1 m q2)
  = String "{" (m ++ "}").
Proof.
  unfold slice.
  replace (Z.to_nat (Z.of_nat (String.length q1 + String.length m + 1) + 1
                     - Z.of_nat (String.length q1)))
    with (String.length (String "{" (m ++ "}")))
    by (cbn [String.length]; rewrite sapp_length; cbn [String.length]; lia).
  rewrite Nat2Z.id. unfold around. rewrite drop_length_app.
  replace (String "{" (m ++ String "}" q2))
    with (String "{" (m ++ "}") ++ q2)
    by (cbn [append]; now rewrite sapp_assoc).
  apply take_length_app.
Qed.

Lemma braces_of_object (m c : string) :
  holds_object m c ->
  (let start_idx := find "{" c in
   let end_idx := (rfind "}" c + 1)%Z in
   if (0 <=? start_idx)%Z && (start_idx <? end_idx)%Z
   then slice start_idx end_idx c
   else c) = String "{" (m ++ "}").
Proof.
  intros (q1 & q2 & -> & H1 & H2). cbv zeta.
  assert (Hf : find "{" (around q1 m q2) = Z.of_nat (String.length q1)).
  { unfold find, around. rewrite (find_brace _ _ 0%Z H1). lia. }
  assert (Hr : rfind "}" (around q1 m q2)
               = Z.of_nat (String.length q1 + String.length m + 1)).
  { unfold rfind. rewrite around_assoc.
    rewrite (rfind_brace _ _ 0%Z (Z.le_refl 0) H2).
    rewrite sapp_length. cbn [String.length]. lia. }
  rewrite Hf, Hr.
  replace ((0 <=? Z.of_nat (String.length q1))%Z) with true
    by (symmetry; apply Z.leb_le; lia).
  replace ((Z.of_nat (String.length q1) <?
            Z.of_nat (String.length q1 + String.length m + 1) + 1)%Z) with true
    by (symmetry; apply Z.ltb_lt; lia).
  cbn [andb]. apply slice_object.
Qed.

(** X12. When the reply of the model is a JSON object [{m}] preceded by a
    text with no opening brace and followed by a text with no closing
    brace, [_extract_json_from_response] returns exactly the object: white
    space, prose and the fence marks before and after it are dropped. *)
Theorem json_object_is_extracted (before m after : string) :
  has_char "{" before = false ->
  has_char "}" after = false ->
  _extract_json_from_response (before ++ "{" ++ m ++ "}" ++ after)
    = "{" ++ m ++ "}".
Proof.
  intros H1 H2.
  assert (H0 : holds_object m (before ++ "{" ++ m ++ "}" ++ after))
    by (exists before, after; auto).
  unfold _extract_json_from_response.
  apply strip_holds_object in H0.
  set (c1 := strip (before ++ "{" ++ m ++ "}" ++ after)) in *.
  assert (Hc2 : holds_object m
            (if startswith "```json" c1 then drop 7 c1
             else if startswith "```" c1 then drop 3 c1 else c1)).
  { destruct (startswith "```json" c1) eqn:E7.
    - now apply (drop_fence_holds_object "```json").
    - destruct (startswith "```" c1) eqn:E3; [| exact H0].
      now apply (drop_fence_holds_object "```"). }
  set (c2 := if startswith "```json" c1 then drop 7 c1
             else if startswith "```" c1 then drop 3 c1 else c1) in *.
  assert (Hc3 : holds_object m (if endswith "```" c2 then drop_last 3 c2 else c2)).
  { destruct (endswith "```" c2) eqn:E; [| exact Hc2].
    now apply (drop_last_fence_holds_object "```"). }
  set (c3 := if endswith "```" c2 then drop_last 3 c2 else c2) in *.
  apply strip_holds_object in Hc3.
  exact (braces_of_object m _ Hc3).
Qed.

(** A fenced reply. *)
Lemma json_object_is_extracted_witness :
  _extract_json_from_response
    ((" ```json" ++ newline) ++ "{" ++ (quoted "bill_items" ++ ": []") ++ "}"
       ++ (newline ++ "``` "))
    = "{" ++ (quoted "bill_items" ++ ": []") ++ "}".
Proof.
  apply json_object_is_extracted; reflexivity.
Defined.

End JsonInReply.

(* ================================================================== *)
(** ** The extractor: the page record it hands to the validator *)

Section ExtractedPages.

Import PyFloat PyStr PySlice Py ValidationEngine BillExtractor Spec Props.
Local Open Scope string_scope.
Local Open Scope list_scope.

Lemma lookup_set_same (k : string) (x : pyval) (d : list (string * pyval)) :
  dict_lookup k (dict_set k x d) = Some x.
Proof.
  induction d as [|[k' y] d IH]; simpl.
  - now rewrite String.eqb_refl.
  - destruct (String.eqb k' k) eqn:E; simpl; rewrite E; [reflexivity | exact IH].
Qed.

Lemma lookup_set_other (k k' : string) (x : pyval) (d : list (string * pyval)) :
  String.eqb k k' = false ->
  dict_lookup k' (dict_set k x d) = dict_lookup k' d.
Proof.
  intro Hne. induction d as [|[k0 y] d IH]; simpl.
  - now rewrite Hne.
  - destruct (String.eqb k0 k) eqn:E; simpl.
    + apply String.eqb_eq in E. subst k0. now rewrite Hne.
    + now rewrite IH.
Qed.

Lemma lookup_setdefault_same (k : string) (x : pyval) (d : list (string * pyval)) :
  exists y, dict_lookup k (dict_setdefault k x d) = Some y.
Proof.
  unfold dict_setdefault. destruct (dict_lookup k d) as [y|] eqn:E.
  - now exists y.
  - exists x. apply lookup_set_same.
Qed.

Lemma lookup_setdefault_other (k k' : string) (x : pyval) (d : list (string * pyval)) :
  String.eqb k k' = false ->
  dict_lookup k' (dict_setdefault k x d) = dict_lookup k' d.
Proof.
  intro Hne. unfold dict_setdefault. destruct (dict_lookup k d); [reflexivity|].
  now apply lookup_set_other.
Qed.

Lemma zero_numbers_prepared (d : list (string * pyval)) (name : pyval) :
  dict_lookup "item_name" d = Some name -> prepared_dict (zero_numbers d).
Proof.
  intro H. exists name, zero, zero, zero. unfold zero_numbers.
  repeat apply conj;
    repeat first [ rewrite lookup_set_same | rewrite lookup_set_other by reflexivity ];
    auto.
Qed.

Lemma convert_numbers_prepared (d d' : list (string * pyval)) (name : pyval) :
  dict_lookup "item_name" d = Some name ->
  convert_numbers d = Ok d' ->
  prepared_dict d'.
Proof.
  intros Hn. unfold convert_numbers.
  destruct (py_float (dict_item "item_amount" d)) as [a|e].
  2:{ destruct (value_or_type_error e); [|discriminate].
      intro H. injection H as <-. eapply zero_numbers_prepared; eauto. }
  set (d1 := dict_set "item_amount" (PFloat a) d).
  assert (Hn1 : dict_lookup "item_name" d1 = Some name)
    by (unfold d1; now rewrite lookup_set_other by reflexivity).
  destruct (py_float (dict_item "item_rate" d1)) as [r|e].
  2:{ destruct (value_or_type_error e); [|discriminate].
      intro H. injection H as <-. eapply zero_numbers_prepared; eauto. }
  set (d2 := dict_set "item_rate" (PFloat r) d1).
  assert (Hn2 : dict_lookup "item_name" d2 = Some name)
    by (unfold d2; now rewrite lookup_set_other by reflexivity).
  destruct (py_float (dict_item "item_quantity" d2)) as [q|e].
  2:{ destruct (value_or_type_error e); [|discriminate].
      intro H. injection H as <-. eapply zero_numbers_prepared; eauto. }
  intro H. injection H as <-. exists name, a, r, q. unfold d2, d1.
  repeat apply conj;
    repeat first [ rewrite lookup_set_same | rewrite lookup_set_other by reflexivity ];
    auto.
Qed.

Lemma prepare_item_prepared (item item' : pyval) :
  prepare_item item = Ok item' -> prepared_item item'.
Proof.
  destruct item as [| | | | |l|d]; try discriminate.
  unfold prepare_item.
  set (d0 := dict_setdefault "item_quantity" (PFloat zero)
               (dict_setdefault "item_rate" (PFloat zero)
                  (dict_setdefault "item_amount" (PFloat zero)
                     (dict_setdefault "item_name" (PStr "") d)))).
  destruct (convert_numbers d0) as [d'|e] eqn:Hc; cbn [bind]; [|discriminate].
  intro H. injection H as <-.
  destruct (lookup_setdefault_same "item_name" (PStr "") d) as [name Hn].
  assert (Hn0 : dict_lookup "item_name" d0 = Some name).
  { unfold d0. now rewrite !lookup_setdefault_other by reflexivity. }
  destruct (convert_numbers_prepared _ _ _ Hn0 Hc) as (n & a & r & q & H1 & H2 & H3 & H4).
  exists d', n, a, r, q. auto.
Qed.

Lemma prepare_items_loop_prepared (items items' : list pyval) :
  prepare_items_loop items = Ok items' ->
  Forall prepared_item items' /\
  Forall (fun i => exists d, i = PDict d) items.
Proof.
  revert items'. induction items as [|x r IH]; intros items' H; simpl in H.
  - injection H as <-. split; constructor.
  - destruct (prepare_item x) as [x'|e] eqn:Hx; cbn [bind] in H; [|discriminate].
    destruct (prepare_items_loop r) as [r'|e] eqn:Hr; cbn [bind] in H; [|discriminate].
    injection H as <-. destruct (IH r' eq_refl) as [H1 H2].
    split; constructor; auto.
    + eapply prepare_item_prepared; eauto.
    + destruct x; try discriminate. now eexists.
Qed.

Lemma chars_not_dicts (s : string) :
  Forall (fun i => exists d, i = PDict d) (chars s) -> chars s = [].
Proof.
  destruct s as [|c s]; [reflexivity|]. simpl. intro H.
  inversion H as [|? ? [d Hd] _]. discriminate.
Qed.

Lemma keys_not_dicts (d0 : list (string * pyval)) :
  Forall (fun i => exists d, i = PDict d) (map (fun kv => PStr (fst kv)) d0) ->
  map (fun kv : string * pyval => PStr (fst kv)) d0 = [].
Proof.
  destruct d0 as [|kv d0]; [reflexivity|]. simpl. intro H.
  inversion H as [|? ? [d Hd] _]. discriminate.
Qed.

Lemma prepare_page_data_items (page_data page : pyval) :
  prepare_page_data page_data = Ok page ->
  exists items, extracted_items page items /\ Forall prepared_item items.
Proof.
  destruct page_data as [| | | | |l|d]; try discriminate.
  unfold prepare_page_data.
  set (d0 := dict_setdefault "bill_items" (PList []) d).
  destruct (lookup_setdefault_same "bill_items" (PList []) d) as [v Hv].
  fold d0 in Hv. unfold dict_item. rewrite Hv.
  destruct (py_iter v) as [items|e] eqn:Hi; cbn [bind]; [|discriminate].
  destruct (prepare_items_loop items) as [items'|e] eqn:Hl; cbn [bind];
    [|discriminate].
  destruct (prepare_items_loop_prepared _ _ Hl) as [Hprep Hdicts].
  destruct v as [| | | |s|l|kd]; try discriminate; intro H; injection H as <-.
  - simpl in Hi. injection Hi as <-. apply chars_not_dicts in Hdicts.
    exists []. split; [| constructor].
    exists d0, (PStr s). simpl. rewrite Hdicts. auto.
  - exists items'. split; [| exact Hprep].
    exists (dict_set "bill_items" (PList items') d0), (PList items').
    rewrite lookup_set_same. auto.
  - simpl in Hi. injection Hi as <-. apply keys_not_dicts in Hdicts.
    exists []. split; [| constructor].
    exists d0, (PDict kd). simpl. rewrite Hdicts. auto.
Qed.

Lemma extracted_page_is_prepared_aux (page_no : string) (page_data : pyval) :
  exists items,
    extracted_items (_extract_page_data page_no page_data) items /\
    Forall prepared_item items.
Proof.
  unfold _extract_page_data.
  destruct (prepare_page_data page_data) as [page|e] eqn:H.
  - eapply prepare_page_data_items; eauto.
  - exists []. split; [| constructor].
    now exists [ ("page_no", PStr page_no); ("page_type", PStr "Bill Detail");
               ("bill_items", PList []) ], (PList []).
Qed.

(** X13. Whatever the parsed record is, [_extract_page_data] returns a
    dict with a [bill_items] entry that a loop can visit, and every item
    the loop visits is a dict with an [item_name] and with [item_amount],
    [item_rate] and [item_quantity] that are floats. *)
Theorem extracted_page_is_prepared (page_no : string) (page_data : pyval) :
  exists items,
    extracted_items (_extract_page_data page_no page_data) items /\
    Forall prepared_item items.
Proof.
  unfold _extract_page_data.
  destruct (prepare_page_data page_data) as [page|e] eqn:H.
  - eapply prepare_page_data_items; eauto.
  - exists []. split; [| constructor].
    now exists [ ("page_no", PStr page_no); ("page_type", PStr "Bill Detail");
               ("bill_items", PList []) ], (PList []).
Qed.

Lemma prepared_item_numbers (item : pyval) :
  prepared_item item ->
  exists d a r q, item = PDict d /\ numeric_fields item = Ok (a, r, q).
Proof.
  intros (d & name & a & r & q & -> & Hn & Ha & Hr & Hq).
  exists d, a, r, q. split; [reflexivity|].
  unfold numeric_fields. cbn [py_get bind]. now rewrite Ha, Hr, Hq.
Qed.

(** The validator on a prepared item: it raises nothing, and leaves the
    item out only for its name. *)
Lemma validate_prepared_item (item : pyval) :
  prepared_item item ->
  exists result,
    _validate_item item = Ok result /\
    (result = None <-> name_rejected item = true).
Proof.
  intro H. destruct (prepared_item_numbers item H) as (d & a & r & q & -> & Hnum).
  unfold _validate_item, name_rejected. cbn [py_get bind]. fold (name_value_of d).
  set (name := strip (py_str (name_value_of d))).
  destruct (String.eqb name "" || (String.length name <? 2)%nat)%bool; cbn [orb].
  - exists None. tauto.
  - destruct (_is_total_or_subtotal name).
    + exists None. tauto.
    + rewrite Hnum. cbn [bind try_except]. eexists. split; [reflexivity|].
      split; discriminate.
Qed.

Lemma validate_prepared_items (items : list pyval) :
  Forall prepared_item items ->
  forall validated, exists out, validate_items_loop items validated = Ok out.
Proof.
  induction 1 as [|x r Hx Hr IH]; intro validated; simpl; [now eexists|].
  destruct (validate_prepared_item x Hx) as ([li|] & -> & _); cbn [bind]; apply IH.
Qed.

(** X14. On a page record returned by [_extract_page_data] the page
    validator either returns a page or raises [AttributeError], and it
    raises only when the record has a [page_type] that is not a string; the
    item validator raises on none of its items and leaves an item out only
    for its name, never for its numbers. *)
Theorem validator_on_extracted_page (page_no : string) (page_data : pyval) :
  let page := _extract_page_data page_no page_data in
  ((exists p, _validate_page page = Ok p) \/
   (_validate_page page = Raise AttributeError /\
    exists d v, page = PDict d /\ dict_lookup "page_type" d = Some v /\
                forall s, v <> PStr s)) /\
  (forall items item,
     extracted_items page items -> In item items ->
     exists result,
       _validate_item item = Ok result /\
       (result = None <-> name_rejected item = true)).
Proof.
  cbv zeta.
  destruct (extracted_page_is_prepared_aux page_no page_data)
    as (items & (d & v & Hpage & Hv & Hiter) & Hprep).
  split.
  - rewrite Hpage. unfold _validate_page. cbn [py_get bind]. rewrite Hv.
    destruct (dict_lookup "page_type" d) as [t|] eqn:Ht.
    + destruct t as [| | | |s| |];
        try (right; split; [reflexivity|]; exists d; eexists;
             repeat split; try reflexivity; try exact Ht; discriminate).
      left. destruct (_normalize_page_type (PStr s)) as [n|e] eqn:Hn.
      * cbn [bind]. rewrite Hiter. cbn [bind].
        destruct (validate_prepared_items items Hprep []) as [out ->].
        cbn [bind]. now eexists.
      * unfold _normalize_page_type in Hn.
        repeat match type of Hn with context [if ?b then _ else _] => destruct b end;
          discriminate.
    + left. change (_normalize_page_type (PStr "Bill Detail")) with (Ok BillDetail).
      cbn [bind]. rewrite Hiter. cbn [bind].
      destruct (validate_prepared_items items Hprep []) as [out ->].
      cbn [bind]. now eexists.
  - intros items' item (d' & v' & Hpage' & Hv' & Hiter') Hin.
    rewrite Hpage in Hpage'. injection Hpage' as <-.
    rewrite Hv in Hv'. injection Hv' as <-.
    rewrite Hiter in Hiter'. injection Hiter' as <-.
    apply validate_prepared_item. rewrite Forall_forall in Hprep. now apply Hprep.
Qed.

End ExtractedPages.

(* ================================================================== *)
(** ** The document reader *)

Section DocumentReader.

Import PyStr PySlice PyConv Py DocReader Props.
Local Open Scope list_scope.
Local Open Scope string_scope.

Lemma contains_char (c : ascii) (s : string) :
  contains (String c EmptyString) s = has_char c s.
Proof.
  induction s as [|a s IH]; [reflexivity|].
  cbn [contains prefix has_char]. rewrite IH.
  destruct (ascii_dec c a) as [<-|Hne].
  - rewrite Ascii.eqb_refl. now destruct s.
  - apply Ascii.eqb_neq in Hne. rewrite Ascii.eqb_sym in Hne. now rewrite Hne.
Qed.

(** *** Splitting *)

(** The first part of a split is what stands before the first separator. *)
Lemma split_on_first (sep : ascii) (u rest w : string) :
  has_char sep u = false ->
  hd EmptyString (split_on_from sep w (u ++ String sep rest)) = w ++ u.
Proof.
  revert w. induction u as [|a u IH]; intros w H.
  - cbn [append split_on_from]. rewrite Ascii.eqb_refl. cbn [hd].
    induction w; simpl; congruence.
  - simpl in H. apply orb_false_iff in H. destruct H as [Ha Hu].
    cbn [append split_on_from]. rewrite Ha. rewrite (IH _ Hu).
    rewrite sapp_assoc. reflexivity.
Qed.

Lemma split_on_whole (sep : ascii) (u w : string) :
  has_char sep u = false -> split_on_from sep w u = [ w ++ u ].
Proof.
  revert w. induction u as [|a u IH]; intros w H.
  - cbn [split_on_from]. now rewrite sapp_nil_r.
  - simpl in H. apply orb_false_iff in H. destruct H as [Ha Hu].
    cbn [split_on_from]. rewrite Ha. rewrite (IH _ Hu).
    now rewrite sapp_assoc.
Qed.

(** No part of a split holds the separator, nor a character that the
    text did not hold. *)
Lemma split_on_parts (sep : ascii) (s : string) :
  forall w part,
    In part (split_on_from sep w s) ->
    forall x,
      has_char x part = true ->
      (has_char x w = true \/ has_char x s = true) /\
      (x = sep -> has_char sep w = true).
Proof.
  induction s as [|a s IH]; intros w part Hin x Hx.
  - destruct Hin as [<-|[]]. split; [now left | intros ->; exact Hx].
  - cbn [split_on_from] in Hin. destruct (Ascii.eqb a sep) eqn:E.
    + destruct Hin as [<-|Hin].
      * split; [now left | intros ->; exact Hx].
      * destruct (IH _ _ Hin x Hx) as [[H|H] Hsep]; [discriminate|].
        split; [right; simpl; rewrite H; apply orb_true_r|].
        intro Hxs. now apply Hsep in Hxs.
    + destruct (IH _ _ Hin x Hx) as [[H|H] Hsep].
      * rewrite has_char_app in H. apply orb_true_iff in H. simpl in H.
        rewrite orb_false_r in H.
        split.
        -- destruct H as [H|H]; [now left | right; simpl; now rewrite H].
        -- intros ->. specialize (Hsep eq_refl).
           rewrite has_char_app in Hsep. simpl in Hsep. rewrite E in Hsep.
           simpl in Hsep. now rewrite orb_false_r in Hsep.
      * split; [right; simpl; rewrite H; apply orb_true_r|].
        intros ->. specialize (Hsep eq_refl).
        rewrite has_char_app in Hsep. simpl in Hsep. rewrite E in Hsep.
        simpl in Hsep. now rewrite orb_false_r in Hsep.
Qed.

Lemma split_on_nonempty (sep : ascii) (s w : string) :
  split_on_from sep w s <> [].
Proof.
  revert w. induction s as [|a s IH]; intro w; cbn [split_on_from]; [discriminate|].
  destruct (Ascii.eqb a sep); [discriminate | apply IH].
Qed.

Lemma last_in {A : Type} (l : list A) (d : A) : l <> [] -> In (last l d) l.
Proof.
  induction l as [|x l IH]; [contradiction|]. intros _.
  destruct l as [|y l]; [now left|]. right. apply IH. discriminate.
Qed.

Lemma hd_in {A : Type} (l : list A) (d : A) : l <> [] -> In (hd d l) l.
Proof. destruct l; [contradiction | now left]. Qed.

Lemma has_char_lower (x : ascii) (s : string) :
  lower_char x = x -> (forall c, lower_char c = x -> c = x) ->
  has_char x (lower s) = has_char x s.
Proof.
  intros Hx Hinj. induction s as [|a s IH]; simpl; [reflexivity|].
  rewrite IH. f_equal.
  destruct (Ascii.eqb_spec (lower_char a) x) as [E|E];
    destruct (Ascii.eqb_spec a x) as [E'|E']; auto.
  - apply Hinj in E. contradiction.
  - subst a. contradiction.
Qed.

Lemma lower_char_dot (c : ascii) : lower_char c = "."%char -> c = "."%char.
Proof. destruct c as [[] [] [] [] [] [] [] []]; vm_compute; congruence. Qed.

Lemma lower_char_question (c : ascii) : lower_char c = "?"%char -> c = "?"%char.
Proof. destruct c as [[] [] [] [] [] [] [] []]; vm_compute; congruence. Qed.

(** The extension is empty or a dot followed by a lower-case text with no
    dot and no question mark. *)
Lemma file_extension_parts (url : string) :
  _get_file_extension url = EmptyString \/
  exists e,
    _get_file_extension url = String "." e /\
    has_char "." e = false /\
    has_char "?" e = false /\
    lower e = e.
Proof.
  unfold _get_file_extension.
  set (url_path := hd EmptyString (split_on "?" url)).
  destruct (contains "." url_path); [right | now left].
  set (tail := last (split_on "." url_path) EmptyString).
  exists (lower tail). repeat apply conj.
  - reflexivity.
  - rewrite (has_char_lower "." tail eq_refl lower_char_dot).
    destruct (has_char "." tail) eqn:E; [|reflexivity].
    assert (Hin : In tail (split_on_from "." EmptyString url_path))
      by (apply last_in, split_on_nonempty).
    destruct (split_on_parts _ _ _ _ Hin "."%char E) as [_ H].
    now specialize (H eq_refl).
  - rewrite (has_char_lower "?" tail eq_refl lower_char_question).
    destruct (has_char "?" tail) eqn:E; [|reflexivity].
    assert (Hin : In tail (split_on_from "." EmptyString url_path))
      by (apply last_in, split_on_nonempty).
    destruct (split_on_parts _ _ _ _ Hin "?"%char E) as [[H|H] _]; [discriminate|].
    assert (Hin' : In url_path (split_on_from "?" EmptyString url))
      by (apply hd_in, split_on_nonempty).
    destruct (split_on_parts _ _ _ _ Hin' "?"%char H) as [_ H'].
    now specialize (H' eq_refl).
  - apply lower_idem.
Qed.

Lemma file_extension_fixed (e : string) :
  has_char "." e = false -> has_char "?" e = false -> lower e = e ->
  _get_file_extension (String "." e) = String "." e.
Proof.
  intros Hd Hq Hl. unfold _get_file_extension, split_on.
  rewrite (split_on_whole "?" (String "." e) EmptyString)
    by (simpl; exact Hq).
  cbn [hd append]. rewrite contains_char. cbn [has_char Ascii.eqb Bool.eqb orb].
  cbn [split_on_from Ascii.eqb Bool.eqb andb].
  rewrite (split_on_whole "." e EmptyString Hd). cbn [last append].
  now rewrite Hl.
Qed.

(** X15. [_get_file_extension] returns the empty text or a dot followed
    by a lower-case text that holds no dot and no question mark, and the
    extension of an extension is that extension. *)
Theorem file_extension_shape (url : string) :
  (_get_file_extension url = EmptyString \/
   exists e,
     _get_file_extension url = String "." e /\
     has_char "." e = false /\
     has_char "?" e = false /\
     lower e = e) /\
  _get_file_extension (_get_file_extension url) = _get_file_extension url.
Proof.
  split.
  - apply file_extension_parts.
  - destruct (file_extension_parts url) as [-> | (e & -> & Hd & Hq & Hl)].
    + reflexivity.
    + now apply file_extension_fixed.
Qed.

(** X16. What follows the first question mark of a URL has no part in its
    extension. *)
Theorem file_extension_ignores_query (url query : string) :
  has_char "?" url = false ->
  _get_file_extension (url ++ "?" ++ query) = _get_file_extension url.
Proof.
  intro H. unfold _get_file_extension, split_on.
  cbn [append]. rewrite (split_on_first "?" url query EmptyString H).
  rewrite (split_on_whole "?" url EmptyString H). reflexivity.
Qed.

Lemma file_extension_ignores_query_witness :
  _get_file_extension ("https://example.com/bills/Bill.PDF" ++ "?" ++ "v=1.2&dl=a.png")
  = _get_file_extension "https://example.com/bills/Bill.PDF"
  /\ _get_file_extension "https://example.com/bills/Bill.PDF" = ".pdf".
Proof.
  split.
  - apply file_extension_ignores_query. reflexivity.
  - reflexivity.
Defined.

(** *** The checks on the content *)

Lemma take_all (n : nat) (s : string) : String.length s <= n -> take n s = s.
Proof.
  revert n. induction s as [|c s IH]; intros [|n] H; simpl in *; try lia;
    try reflexivity.
  rewrite IH; [reflexivity | lia].
Qed.

Lemma prefix_of_take (p s : string) (n : nat) :
  prefix p (take n s) = true -> prefix p s = true.
Proof.
  revert s n. induction p as [|a p IH]; intros s n H.
  - now destruct s.
  - destruct s as [|b s]; destruct n as [|n]; simpl in *; try discriminate.
    destruct (ascii_dec a b); [|discriminate]. eapply IH; eauto.
Qed.

Lemma prefix_in_take (p s : string) (n : nat) :
  String.length p <= n -> prefix p s = true -> prefix p (take n s) = true.
Proof.
  revert s n. induction p as [|a p IH]; intros s n Hn H.
  - now destruct (take n s).
  - destruct s as [|b s]; destruct n as [|n]; simpl in *; try discriminate; try lia.
    destruct (ascii_dec a b); [|discriminate]. apply IH; [lia | exact H].
Qed.

Lemma preview_is_take (content : string) :
  (if (500 <? String.length content)%nat then take 500 content else content)
  = take 500 content.
Proof.
  destruct (500 <? String.length content)%nat eqn:E; [reflexivity|].
  apply Nat.ltb_ge in E. symmetry. now apply take_all.
Qed.

Lemma first_char_of_prefix (a : ascii) (p s : string) :
  prefix (String a p) s = true -> exists r, s = String a r.
Proof.
  destruct s as [|b s]; simpl; [discriminate|].
  destruct (ascii_dec a b) as [<-|]; [|discriminate]. now eexists.
Qed.

(** X17. When [process_document] goes on to process the content, the
    content has at least 100 bytes and the two checks [_process_image]
    makes before it opens an image pass, so on this path they never raise;
    a content that starts with the PDF mark is processed as a PDF and one
    that starts with the PNG, JPEG or TIFF mark as an image, whatever the
    content-type header and the URL say. *)
Theorem routed_content_is_checked
    (header : option string) (content url : string) (route : Route) :
  route_document header content url = Ok route ->
  100 <= String.length content /\
  image_checks content = Ok tt /\
  (startswith "%PDF" content = true -> route = AsPdf) /\
  (startswith png_magic content = true
   \/ startswith jpeg_magic content = true
   \/ startswith tiff_magic_little content = true
   \/ startswith tiff_magic_big content = true -> route = AsImage).
Proof.
  unfold route_document. rewrite preview_is_take.
  set (content_type := lower match header with Some h => h | None => EmptyString end).
  destruct (contains "text/html" content_type); [discriminate|]. cbn [orb].
  destruct (startswith "<!DOCTYPE" (take 500 content)) eqn:Hd; [discriminate|].
  destruct (startswith "<html" (take 500 content)) eqn:Hh; [discriminate|].
  destruct (contains "<html" (bytes_lower (take 500 content))) eqn:Hc; [discriminate|].
  cbn [orb].
  destruct (String.length content <? 100)%nat eqn:Hlen; [discriminate|].
  apply Nat.ltb_ge in Hlen. intro H.
  repeat apply conj.
  - exact Hlen.
  - unfold image_checks. apply Nat.ltb_ge in Hlen. rewrite Hlen. rewrite Hc.
    destruct (startswith "<!DOCTYPE" (take 100 content)) eqn:Hd'.
    { unfold startswith in *. apply prefix_of_take in Hd'.
      apply (prefix_in_take _ _ 500) in Hd'; [congruence | cbn; lia]. }
    destruct (startswith "<html" (take 100 content)) eqn:Hh'.
    { unfold startswith in *. apply prefix_of_take in Hh'.
      apply (prefix_in_take _ _ 500) in Hh'; [congruence | cbn; lia]. }
    reflexivity.
  - intro Hpdf. rewrite Hpdf in H. now injection H as <-.
  - intro Himg.
    destruct (startswith "%PDF" content) eqn:Hpdf.
    { unfold startswith in *. apply first_char_of_prefix in Hpdf.
      destruct Hpdf as [r ->].
      destruct Himg as [Hi|[Hi|[Hi|Hi]]]; vm_compute in Hi; discriminate. }
    destruct (startswith png_magic content); [now injection H as <-|].
    destruct (startswith jpeg_magic content); [now injection H as <-|].
    destruct (startswith tiff_magic_little content); [now injection H as <-|].
    destruct (startswith tiff_magic_big content); [now injection H as <-|].
    destruct Himg as [Hi|[Hi|[Hi|Hi]]]; discriminate.
Qed.

(** A PNG served with a PDF content type under a URL that ends in .pdf. *)
Lemma routed_content_is_checked_witness :
  let content := png_magic ++ repeat_char "x" 120 in
  route_document (Some "Application/PDF") content "https://example.com/bill.pdf"
    = Ok AsImage /\
  100 <= String.length content /\
  image_checks content = Ok tt.
Proof.
  assert (H : route_document (Some "Application/PDF")
                (png_magic ++ repeat_char "x" 120) "https://example.com/bill.pdf"
              = Ok AsImage) by (vm_compute; reflexivity).
  destruct (routed_content_is_checked _ _ _ _ H) as (H1 & H2 & _).
  cbv zeta. auto.
Defined.

End DocumentReader.

(* ================================================================== *)
(** ** The endpoint *)

Section EndpointFacts.

Import Py ValidationEngine Main Endpoint Spec Props.
Local Open Scope string_scope.
Local Open Scope list_scope.


Lemma validate_items_loop_accepted (items : list pyval) :
  forall validated out,
    validate_items_loop items validated = Ok out ->
    out = validated ++ accepted items.
Proof.
  induction items as [|x r IH]; intros validated out H; simpl in H.
  - injection H as <-. now rewrite app_nil_r.
  - unfold accepted. cbn [flat_map]. fold (accepted r).
    destruct (_validate_item x) as [[li|]|e]; cbn [bind] in H; try discriminate.
    + rewrite (IH _ _ H). now rewrite <- app_assoc.
    + now rewrite (IH _ _ H).
Qed.

Lemma accepted_length (items : list pyval) :
  List.length (accepted items) <= List.length items.
Proof.
  induction items as [|x r IH]; simpl; [lia|].
  rewrite length_app.
  destruct (_validate_item x) as [[li|]|e]; simpl; lia.
Qed.

Lemma validate_page_items (raw : pyval) (p : Page) :
  _validate_page raw = Ok p ->
  exists d items,
    raw = PDict d /\
    py_iter (field d "bill_items" (PList [])) = Ok items /\
    validate_items_loop items [] = Ok (bill_items p).
Proof.
  destruct raw as [| | | | |l|d]; try discriminate.
  unfold _validate_page. cbn [py_get bind].
  fold (field d "bill_items" (PList [])).
  destruct (_normalize_page_type _) as [t|e]; [|discriminate]. cbn [bind].
  destruct (py_iter (field d "bill_items" (PList []))) as [items|e] eqn:Hi;
    [|discriminate].
  cbn [bind].
  destruct (validate_items_loop items []) as [v|e] eqn:Hl; [|discriminate].
  cbn [bind]. intro H. injection H as <-. cbn [bill_items].
  exists d, items. repeat apply conj; auto.
Qed.

(** X18. The page validator keeps the accepted items in the order of the
    raw items: the items of the page it returns are the results of the item
    validator over the raw items, in order, without those it rejects; so a
    page has at most as many items as its raw record. *)
Theorem validated_items_keep_order (raw : pyval) (p : Page) :
  _validate_page raw = Ok p ->
  exists d items,
    raw = PDict d /\
    py_iter (field d "bill_items" (PList [])) = Ok items /\
    bill_items p = accepted items /\
    List.length (bill_items p) <= raw_items_of raw.
Proof.
  intro H. destruct (validate_page_items raw p H) as (d & items & -> & Hi & Hl).
  apply validate_items_loop_accepted in Hl. cbn [app] in Hl.
  exists d, items. repeat apply conj; auto.
  rewrite Hl. unfold raw_items_of. rewrite Hi. apply accepted_length.
Qed.

Lemma validated_items_keep_order_witness :
  exists d items,
    PDict [ ("bill_items",
             PList [ raw_item (PStr "Total") (PInt 90) (PInt 90) (PInt 1);
                     raw_item (PStr "Saline 500ml") (PInt 45) (PInt 45) (PInt 1);
                     raw_item (PStr "Gauze") (PStr "n/a") (PInt 1) (PInt 1);
                     raw_item (PStr "Syringe 5ml") (PInt 45) (PInt 45) (PInt 1) ]) ]
      = PDict d /\
    py_iter (field d "bill_items" (PList [])) = Ok items /\
    [ {| item_name := "Saline 500ml"; item_amount := PyFloat.of_Z 45;
         item_rate := PyFloat.of_Z 45; item_quantity := PyFloat.of_Z 1 |};
      {| item_name := "Syringe 5ml"; item_amount := PyFloat.of_Z 45;
         item_rate := PyFloat.of_Z 45; item_quantity := PyFloat.of_Z 1 |} ]
      = accepted items /\
    2 <= 4.
Proof.
  apply (validated_items_keep_order
           (PDict [ ("bill_items",
             PList [ raw_item (PStr "Total") (PInt 90) (PInt 90) (PInt 1);
                     raw_item (PStr "Saline 500ml") (PInt 45) (PInt 45) (PInt 1);
                     raw_item (PStr "Gauze") (PStr "n/a") (PInt 1) (PInt 1);
                     raw_item (PStr "Syringe 5ml") (PInt 45) (PInt 45) (PInt 1) ]) ])
           {| page_no := "1"; page_type := BillDetail;
              bill_items :=
                [ {| item_name := "Saline 500ml"; item_amount := PyFloat.of_Z 45;
                     item_rate := PyFloat.of_Z 45; item_quantity := PyFloat.of_Z 1 |};
                  {| item_name := "Syringe 5ml"; item_amount := PyFloat.of_Z 45;
                     item_rate := PyFloat.of_Z 45; item_quantity := PyFloat.of_Z 1 |} ] |}).
  vm_compute. reflexivity.
Defined.

Lemma select_length {A : Type} (mask : list bool) (l : list A) :
  List.length (select mask l) <= List.length l.
Proof.
  revert mask. induction l as [|x r IH]; intros [|b m]; simpl; try lia.
  destruct b; simpl; specialize (IH m); lia.
Qed.

Lemma dedup_count (pages : list Page) :
  forall seen,
    item_count_total (map masked (combine (masks_from seen pages) pages))
    <= item_count_total pages.
Proof.
  induction pages as [|p r IH]; intro seen; simpl; [lia|].
  pose proof (select_length (flags_from seen (bill_items p)) (bill_items p)).
  specialize (IH (seen ++ select (flags_from seen (bill_items p)) (bill_items p))).
  lia.
Qed.

Lemma validated_count (pages : list pyval) (validated : list Page) :
  Forall2 (fun raw p => _validate_page raw = Ok p) pages validated ->
  item_count_total validated <= raw_item_count pages.
Proof.
  unfold raw_item_count.
  induction 1 as [|raw p raws ps Hp Hall IH]; simpl; [lia|].
  destruct (validate_page_items _ _ Hp) as (d & items & -> & Hi & Hl).
  apply validate_items_loop_accepted in Hl. cbn [app] in Hl.
  pose proof (accepted_length items) as Hlen.
  rewrite Hl. cbn [raw_items_of]. rewrite Hi. lia.
Qed.

(** X19. The reconciled item count never exceeds the number of raw items
    of the input pages. *)
Theorem item_count_is_bounded (pages : list pyval) (r : ProcessedResult) :
  reconcile pages = Ok r ->
  total_item_count r <= raw_item_count pages.
Proof.
  unfold reconcile. intro H.
  destruct (validate_and_deduplicate pages) as [clean|e] eqn:Hv; cbn [bind] in H;
    [|discriminate].
  injection H as <-. cbn [total_item_count].
  destruct pages as [|x rest]; [injection Hv as <-; simpl; lia|].
  unfold validate_and_deduplicate in Hv.
  destruct (validate_pages_loop (x :: rest) []) as [validated|e] eqn:Hloop;
    [|discriminate].
  cbn [bind] in Hv. injection Hv as <-.
  destruct (validate_pages_loop_pointwise _ _ _ Hloop) as (added & -> & Hall).
  cbn [app]. unfold _deduplicate_items. rewrite dedup_pages_loop_masks. cbn [app].
  pose proof (dedup_count added (map seen_item [])).
  pose proof (validated_count _ _ Hall). lia.
Qed.

(** The reconciliation example: three raw items, two counted. *)
Lemma item_count_is_bounded_witness : 2 <= raw_item_count reconciliation_example.
Proof.
  apply (item_count_is_bounded reconciliation_example
           {| pagewise_line_items :=
                [ {| page_no := "1"; page_type := BillDetail;
                     bill_items := [ line_item "Consultation" (PyFloat.lit 105 10) ] |};
                  {| page_no := "2"; page_type := FinalBill; bill_items := [] |};
                  {| page_no := "3"; page_type := Pharmacy;
                     bill_items := [ line_item "Syringe 5ml" (PyFloat.lit 20 1) ] |} ];
              total_item_count := 2;
              reconciled_amount := PyFloat.lit 305 10 |}).
  vm_compute. reflexivity.
Defined.

(** X20. In [process_invoice_request] an empty page list is answered with
    the extraction error before the validator is called: when steps 3 to 5
    compute totals, they are the totals of the core for a list of at least
    one page, and the result holds one page for each page of the
    extraction. *)
Theorem endpoint_success (pages : list pyval) (r : ProcessedResult) :
  steps_2_to_5 pages = Reconciled r ->
  reconcile pages = Ok r /\
  List.length (pagewise_line_items r) = List.length pages /\
  0 < List.length (pagewise_line_items r) /\
  steps_2_to_5 [] = ExtractionFailed.
Proof.
  intro H. destruct pages as [|x rest]; [discriminate|].
  unfold steps_2_to_5 in H.
  destruct (reconcile (x :: rest)) as [r'|e] eqn:Hr; [|discriminate].
  injection H as <-. split; [reflexivity|].
  unfold reconcile in Hr.
  destruct (validate_and_deduplicate (x :: rest)) as [clean|e] eqn:Hv;
    cbn [bind] in Hr; [|discriminate].
  injection Hr as <-. cbn [pagewise_line_items].
  destruct (pages_are_preserved_aux _ _ Hv) as [_ Hlen].
  rewrite Hlen. simpl. repeat apply conj; try reflexivity. lia.
Qed.

Lemma endpoint_success_witness :
  exists r,
    reconcile reconciliation_example = Ok r /\
    List.length (pagewise_line_items r) = 3.
Proof.
  destruct (steps_2_to_5 reconciliation_example) as [| e | r] eqn:H;
    try (vm_compute in H; discriminate).
  exists r. destruct (endpoint_success _ _ H) as (H1 & H2 & _).
  split; [exact H1 | exact H2].
Defined.

End EndpointFacts.
